(** * json_analys: structural analysis of JSON documents

    A shallow embedding of [json_analys/json_analys.py]: the recursive walk
    [analyze_json_structure], the per-folder fold of [analys_json_folder]
    into the index [field_types], the classification made by
    [generate_field_consistency_report] and the batch comparison of
    [analyze_consistency].

    Python values are modelled as follows.
    - A decoded JSON document is a [json] tree; mappings keep the insertion
      order of their keys, as [dict] does.
    - Python [int] is [Z].
    - A Python [dict] with string keys is an insertion-ordered association
      list ([PyDict.t]); assignment [d[k] = v] replaces in place or appends.
    - The mutable [result] threaded through the recursion is passed and
      returned explicitly.
    - Rendering of the reports to Markdown text is not modelled; the
      report functions return the data which the text tabulates. *)

From Stdlib Require Import List ListSet String Ascii ZArith Bool Lia.
From Stdlib Require Import Sorted Permutation DecimalString.
Import ListNotations.
Open Scope string_scope.
Open Scope Z_scope.

Set Implicit Arguments.

#[local] Arguments Z.add : simpl never.
#[local] Arguments Z.max : simpl never.
#[local] Arguments Z.mul : simpl never.
#[local] Arguments Z.of_nat : simpl never.

(* ================================================================== *)
(** ** Python dictionaries with string keys *)

Module PyDict.
Section Dict.
Variable V : Type.

Definition t := list (string * V).

Definition empty : t := [].

(** [k in d] and [d[k]] (the latter raises [KeyError] where this is
    [None]). *)
Fixpoint lookup (d : t) (k : string) : option V :=
  match d with
  | [] => None
  | (k', v) :: d' => if String.eqb k' k then Some v else lookup d' k
  end.

Definition mem (d : t) (k : string) : bool :=
  match lookup d k with Some _ => true | None => false end.

(** [d.get(k, default)] *)
Definition get (d : t) (k : string) (default : V) : V :=
  match lookup d k with Some v => v | None => default end.

(** [d[k] = v] *)
Fixpoint set (d : t) (k : string) (v : V) : t :=
  match d with
  | [] => [(k, v)]
  | (k', v') :: d' =>
      if String.eqb k' k then (k', v) :: d' else (k', v') :: set d' k v
  end.

Definition keys (d : t) : list string := map fst d.
Definition values (d : t) : list V := map snd d.
Definition items (d : t) : list (string * V) := d.
Definition len (d : t) : Z := Z.of_nat (List.length d).

(** A dictionary built by successive assignments, as a comprehension
    or an assigning loop does. *)
Definition of_items (l : list (string * V)) : t :=
  fold_left (fun d kv => set d (fst kv) (snd kv)) l empty.

(** Well-formedness: every Python dictionary has pairwise distinct keys. *)
Definition wf (d : t) : Prop := NoDup (keys d).
End Dict.
Arguments empty {V}.
End PyDict.

(* ================================================================== *)
(** ** Decoded documents *)

(** The value [json.load] returns.  The payload of a float is never
    inspected by the analyser; it is kept as its literal text. *)
Unset Elimination Schemes.
Inductive json : Type :=
| JNull
| JBool (b : bool)
| JInt (n : Z)
| JFloat (lit : string)
| JStr (s : string)
| JList (elems : list json)
| JDict (members : list (string * json)).
Set Elimination Schemes.

(** [type(value).__name__] *)
Definition type_name (value : json) : string :=
  match value with
  | JNull => "NoneType"
  | JBool _ => "bool"
  | JInt _ => "int"
  | JFloat _ => "float"
  | JStr _ => "str"
  | JList _ => "list"
  | JDict _ => "dict"
  end.

(** [isinstance(value, (dict, list))] *)
Definition is_container (value : json) : bool :=
  match value with
  | JList _ | JDict _ => true
  | _ => false
  end.

(* ================================================================== *)
(** ** The walk: [analyze_json_structure] *)

Record field_info : Type := FieldInfo {
  f_path : string;
  f_type : string;
  f_level : Z
}.

Record Result : Type := MkResult {
  fields : list field_info;
  types : PyDict.t Z;
  max_level : Z
}.

(** The dictionary created when [result is None]. *)
Definition fresh_result : Result :=
  {| fields := []; types := PyDict.empty; max_level := 0 |}.

(** [result["types"][name] += 1] on a [defaultdict(int)]. *)
Definition incr_type (tys : PyDict.t Z) (name : string) : PyDict.t Z :=
  PyDict.set tys name (PyDict.get tys name 0 + 1).

(** [f"{path}.{key}" if path else key] *)
Definition child_path (path key : string) : string :=
  if String.eqb path "" then key else path ++ "." ++ key.

(** [f"{path}[0]"] *)
Definition sample_path_of (path : string) : string := path ++ "[0]".

Fixpoint analyze_json_structure
    (data : json) (path : string) (result : option Result) (level : Z)
    : Result :=
  let result :=
    match result with None => fresh_result | Some r => r end in
  let result :=
    {| fields := fields result;
       types := types result;
       max_level := Z.max (max_level result) level |} in
  match data with
  | JDict members =>
      fold_left
        (fun result kv =>
           match kv with
           | (key, value) =>
               let current_path := child_path path key in
               let field := {| f_path := current_path;
                               f_type := type_name value;
                               f_level := level |} in
               let result :=
                 {| fields := (fields result ++ [field])%list;
                    types := incr_type (types result) (type_name value);
                    max_level := max_level result |} in
               if is_container value
               then analyze_json_structure value current_path
                                           (Some result) (level + 1)
               else result
           end)
        members result
  | JList elems =>
      let result :=
        {| fields := fields result;
           types := incr_type (types result) "list";
           max_level := max_level result |} in
      match elems with
      | [] => result
      | sample_item :: _ =>
          let sample_path := sample_path_of path in
          let field := {| f_path := sample_path;
                          f_type := type_name sample_item;
                          f_level := level |} in
          let result :=
            {| fields := (fields result ++ [field])%list;
               types := types result;
               max_level := max_level result |} in
          if is_container sample_item
          then analyze_json_structure sample_item sample_path
                                      (Some result) (level + 1)
          else result
      end
  | _ => result
  end.

(** The body of the loop over [data.items()], for reasoning about one
    member at a time. *)
Definition visit_member (path : string) (level : Z)
    (result : Result) (kv : string * json) : Result :=
  let current_path := child_path path (fst kv) in
  let field := {| f_path := current_path;
                  f_type := type_name (snd kv);
                  f_level := level |} in
  let result :=
    {| fields := (fields result ++ [field])%list;
       types := incr_type (types result) (type_name (snd kv));
       max_level := max_level result |} in
  if is_container (snd kv)
  then analyze_json_structure (snd kv) current_path (Some result) (level + 1)
  else result.

(** The recursive call guarded by [isinstance(sample_item, (dict, list))]. *)
Definition descend (value : json) (path : string) (result : Result)
    (level : Z) : Result :=
  if is_container value
  then analyze_json_structure value path (Some result) (level + 1)
  else result.

(** The update of the running maximum made on entry to every call. *)
Definition enter (result : Result) (level : Z) : Result :=
  {| fields := fields result;
     types := types result;
     max_level := Z.max (max_level result) level |}.

(** [types.get(name, 0)]: the number of times a kind was counted. *)
Definition count (tys : PyDict.t Z) (name : string) : Z :=
  PyDict.get tys name 0.

Definition sumZ (l : list Z) : Z := fold_right Z.add 0 l.

(** The number of containers the walk enters one inside the other below
    [data]: through every container member of a mapping and through the
    first element of a sequence. *)
Fixpoint walk_depth (data : json) : Z :=
  match data with
  | JDict members =>
      fold_right
        (fun kv m =>
           Z.max (if is_container (snd kv)
                  then 1 + walk_depth (snd kv) else 0) m)
        0 members
  | JList (sample_item :: _) =>
      if is_container sample_item then 1 + walk_depth sample_item else 0
  | _ => 0
  end.

(* ================================================================== *)
(** ** Folding a folder of documents: [analys_json_folder] *)

(** What opening and decoding one file gives inside the [try] block: the
    decoded document, or the exception raised. *)
Inductive load_outcome : Type :=
| Loaded (data : json)
| LoadError (e : string).

(** One entry of [json_files].  [jf_title] is the base name without its
    extension, which the loop computes with [os.path]. *)
Record json_file : Type := JsonFile {
  jf_path : string;
  jf_title : string;
  jf_load : load_outcome
}.

(** Lines printed by the loop. *)
Inductive printed_line : Type :=
| PrintAnalyzed (json_file : string)
| PrintError (json_file : string) (e : string).

Definition FieldTypes : Type := PyDict.t (PyDict.t (list string)).

Record folder_state : Type := FolderState {
  field_types : FieldTypes;
  all_files : list string;
  printed : list printed_line
}.

Definition initial_folder_state : folder_state :=
  {| field_types := PyDict.empty; all_files := []; printed := [] |}.

(** The body of [for field_info in file_result["fields"]].  The inner
    dictionary is updated in place in the source; here it is written back. *)
Definition record_field (file_title : string) (field_types : FieldTypes)
    (field_info : field_info) : FieldTypes :=
  let field_path := f_path field_info in
  let field_type := f_type field_info in
  let field_types :=
    if PyDict.mem field_types field_path then field_types
    else PyDict.set field_types field_path PyDict.empty in
  let tys := PyDict.get field_types field_path PyDict.empty in
  let tys :=
    if PyDict.mem tys field_type then tys
    else PyDict.set tys field_type [] in
  let files := PyDict.get tys field_type [] in
  PyDict.set field_types field_path
    (PyDict.set tys field_type (files ++ [file_title])%list).

(** The body of [for json_file in json_files], with its [try]/[except]. *)
Definition process_file (st : folder_state) (jf : json_file)
    : folder_state :=
  match jf_load jf with
  | Loaded data =>
      let file_result := analyze_json_structure data "" None 0 in
      {| field_types :=
           fold_left (record_field (jf_title jf)) (fields file_result)
                     (field_types st);
         all_files := (all_files st ++ [jf_title jf])%list;
         printed := (printed st ++ [PrintAnalyzed (jf_path jf)])%list |}
  | LoadError e =>
      {| field_types := field_types st;
         all_files := all_files st;
         printed := (printed st ++ [PrintError (jf_path jf) e])%list |}
  end.

Definition process_files (json_files : list json_file) : folder_state :=
  fold_left process_file json_files initial_folder_state.

(* ================================================================== *)
(** ** Classifying the index: [generate_field_consistency_report] *)

(** [sorted] on strings: insertion into an ordered list. *)
Fixpoint insert_sorted (x : string) (l : list string) : list string :=
  match l with
  | [] => [x]
  | y :: l' => if String.leb x y then x :: l else y :: insert_sorted x l'
  end.

Definition sorted (l : list string) : list string :=
  fold_right insert_sorted [] l.

(** [field_path.count(".")] *)
Fixpoint count_dots (s : string) : Z :=
  match s with
  | EmptyString => 0
  | String c s' =>
      (if Ascii.eqb c "."%char then 1 else 0) + count_dots s'
  end.

(** One line of the table of all fields. *)
Record field_row : Type := FieldRow {
  row_level : Z;
  row_path : string;
  row_types : PyDict.t (list string);
  is_consistent : bool
}.

Record field_report_data : Type := FieldReportData {
  total_files : Z;
  total_fields : Z;
  inconsistent_fields : list string;
  rows : list field_row
}.

(** The report is either the fixed text saying that no field information
    was found, or the tables. *)
Inductive field_report : Type :=
| NoFieldInfo
| FieldReport (d : field_report_data).

Definition make_row (field_types : FieldTypes) (field_path : string)
    : field_row :=
  let tys := PyDict.get field_types field_path PyDict.empty in
  {| row_level := count_dots field_path;
     row_path := field_path;
     row_types := tys;
     is_consistent := PyDict.len tys =? 1 |}.

Definition generate_field_consistency_report
    (field_types : FieldTypes) (all_files : list string) : field_report :=
  match field_types with
  | [] => NoFieldInfo
  | _ =>
      FieldReport
        {| total_files := Z.of_nat (List.length all_files);
           total_fields := PyDict.len field_types;
           inconsistent_fields :=
             map fst (filter (fun pt => 1 <? PyDict.len (snd pt))
                             (PyDict.items field_types));
           rows := map (make_row field_types)
                       (sorted (PyDict.keys field_types)) |}
  end.

(** [analys_json_folder]: [None] when the folder holds no JSON file, and
    otherwise the report written to disk with the lines printed. *)
Definition analys_json_folder (json_files : list json_file)
    : option (field_report * list printed_line) :=
  match json_files with
  | [] => None
  | _ =>
      let st := process_files json_files in
      Some (generate_field_consistency_report (field_types st) (all_files st),
            printed st)
  end.

(* ================================================================== *)
(** ** Comparing summaries: [analyze_consistency] *)

(** [set(iterable)]; the iteration order of a Python set is unspecified,
    and nothing below depends on the order chosen here. *)
Definition py_set (A : Type) (dec : forall x y : A, {x = y} + {x <> y})
    (l : list A) : list A :=
  fold_left (fun s x => set_add dec x s) l [].

Definition set_len (A : Type) (s : list A) : Z := Z.of_nat (List.length s).

Definition max_levels_of (all_results : PyDict.t Result) : PyDict.t Z :=
  PyDict.of_items
    (map (fun fr => (fst fr, max_level (snd fr))) (PyDict.items all_results)).

Definition type_stats_of (all_results : PyDict.t Result)
    : PyDict.t (PyDict.t Z) :=
  PyDict.of_items
    (map (fun fr => (fst fr, types (snd fr))) (PyDict.items all_results)).

Definition all_types_of (type_stats : PyDict.t (PyDict.t Z)) : list string :=
  fold_left
    (fun s tys =>
       fold_left (fun s k => set_add string_dec k s) (PyDict.keys tys) s)
    (PyDict.values type_stats) [].

(** [type_counts[type_name][file] = count]; the key [type_name] is always
    present, the dictionary having one entry per member of [all_types]. *)
Definition set_count (type_counts : PyDict.t (PyDict.t Z))
    (type_name file : string) (count : Z) : PyDict.t (PyDict.t Z) :=
  match PyDict.lookup type_counts type_name with
  | Some counts =>
      PyDict.set type_counts type_name (PyDict.set counts file count)
  | None => type_counts
  end.

(** The inner loop [for type_name in all_types] for one file. *)
Definition count_row (file : string) (tys : PyDict.t Z)
    (all_types : list string) (type_counts : PyDict.t (PyDict.t Z))
    : PyDict.t (PyDict.t Z) :=
  fold_left
    (fun type_counts type_name =>
       let count := PyDict.get tys type_name 0 in
       set_count type_counts type_name file count)
    all_types type_counts.

Definition type_counts_of (all_types : list string)
    (type_stats : PyDict.t (PyDict.t Z)) : PyDict.t (PyDict.t Z) :=
  fold_left
    (fun type_counts ft => count_row (fst ft) (snd ft) all_types type_counts)
    (PyDict.items type_stats)
    (PyDict.of_items (map (fun t => (t, PyDict.empty)) all_types)).

(** [len(set(counts.values())) > 1] *)
Definition uneven (counts : PyDict.t Z) : bool :=
  1 <? set_len (py_set Z.eq_dec (PyDict.values counts)).

Definition type_consistency_of (all_types : list string)
    (type_counts : PyDict.t (PyDict.t Z)) : PyDict.t bool :=
  fold_left
    (fun type_consistency tc =>
       if uneven (snd tc)
       then PyDict.set type_consistency (fst tc) false
       else type_consistency)
    (PyDict.items type_counts)
    (PyDict.of_items (map (fun t => (t, true)) all_types)).

Record consistency_data : Type := ConsistencyData {
  max_levels : PyDict.t Z;
  is_level_consistent : bool;
  consistent_level : option Z;
  type_stats : PyDict.t (PyDict.t Z);
  all_types : list string;
  type_counts : PyDict.t (PyDict.t Z);
  type_consistency : PyDict.t bool;
  fully_consistent : bool
}.

(** The report is either the fixed text saying that no analysis result
    was found, or the comparison. *)
Inductive consistency_report : Type :=
| NoResults
| ConsistencyReport (d : consistency_data).

Definition consistency_data_of (all_results : PyDict.t Result)
    : consistency_data :=
  let max_levels := max_levels_of all_results in
  let is_level_consistent :=
    set_len (py_set Z.eq_dec (PyDict.values max_levels)) =? 1 in
  let consistent_level :=
    if is_level_consistent then hd_error (PyDict.values max_levels)
    else None in
  let type_stats := type_stats_of all_results in
  let all_types := all_types_of type_stats in
  let type_counts := type_counts_of all_types type_stats in
  let type_consistency := type_consistency_of all_types type_counts in
  {| max_levels := max_levels;
     is_level_consistent := is_level_consistent;
     consistent_level := consistent_level;
     type_stats := type_stats;
     all_types := all_types;
     type_counts := type_counts;
     type_consistency := type_consistency;
     fully_consistent :=
       is_level_consistent
       && forallb (fun b => b) (PyDict.values type_consistency) |}.

Definition analyze_consistency (all_results : PyDict.t Result)
    : consistency_report :=
  match all_results with
  | [] => NoResults
  | _ => ConsistencyReport (consistency_data_of all_results)
  end.

(** The summaries of a batch, keyed by file title, as [all_results]. *)
Definition results_of (docs : list (string * json)) : PyDict.t Result :=
  PyDict.of_items
    (map (fun d => (fst d, analyze_json_structure (snd d) "" None 0)) docs).

(* ================================================================== *)
(** ** What a batch shows for a path *)

Definition is_loaded (jf : json_file) : bool :=
  match jf_load jf with Loaded _ => true | LoadError _ => false end.

(** [observed json_files p t]: some document of the batch that was decoded
    has an observation of kind [t] at path [p]. *)
Definition observed (json_files : list json_file) (p t : string) : Prop :=
  exists jf data fi,
    In jf json_files /\ jf_load jf = Loaded data
    /\ In fi (fields (analyze_json_structure data "" None 0))
    /\ f_path fi = p /\ f_type fi = t.

(** The kinds recorded in the index for a path. *)
Definition kinds_at (field_types : FieldTypes) (p : string) : list string :=
  match PyDict.lookup field_types p with
  | Some tys => PyDict.keys tys
  | None => []
  end.

(** The index is well formed when its paths are pairwise distinct and so
    are the kinds recorded at every path. *)
Definition index_wf (field_types : FieldTypes) : Prop :=
  PyDict.wf field_types /\ forall p, NoDup (kinds_at field_types p).

(* ================================================================== *)
(** ** Sample documents *)

Definition docA : json :=
  JDict [("a", JInt 1); ("b", JList [JDict [("c", JStr "x")]])].

Definition docB : json :=
  JDict [("a", JInt 2); ("b", JList [JDict [("c", JInt 3)]])].

Definition batchAB : list json_file :=
  [ {| jf_path := "in/A.json"; jf_title := "A"; jf_load := Loaded docA |};
    {| jf_path := "in/B.json"; jf_title := "B"; jf_load := Loaded docB |} ].

(** The report and the printed lines of the batch of [docA] and [docB]. *)
Definition reportAB : field_report_data :=
  {| total_files := 2;
     total_fields := 4;
     inconsistent_fields := ["b[0].c"];
     rows :=
       [ {| row_level := 0; row_path := "a";
            row_types := [("int", ["A"; "B"])]; is_consistent := true |};
         {| row_level := 0; row_path := "b";
            row_types := [("list", ["A"; "B"])]; is_consistent := true |};
         {| row_level := 0; row_path := "b[0]";
            row_types := [("dict", ["A"; "B"])]; is_consistent := true |};
         {| row_level := 1; row_path := "b[0].c";
            row_types := [("str", ["A"]); ("int", ["B"])];
            is_consistent := false |} ] |}.

Definition linesAB : list printed_line :=
  [PrintAnalyzed "in/A.json"; PrintAnalyzed "in/B.json"].

Definition resultsAB : PyDict.t Result :=
  results_of [("A", docA); ("B", docB)].

Definition docC : json :=
  JDict [("b", JList [JDict [("c", JInt 1)]])].

(** [[[1]]]: sequences only. *)
Definition nested_sequences : json := JList [JList [JInt 1]].

(** [[1, {"a": {"b": 1}}]]: the mappings sit behind the first element. *)
Definition mappings_behind_sample : json :=
  JList [JInt 1; JDict [("a", JDict [("b", JInt 1)])]].

(* ================================================================== *)
(** ** Depth, as the walk counts it and as a nesting of mappings *)

(** [visits data n]: the walk started on [data] makes a call on a value
    nested [n] containers below it.  Every container member of a mapping
    is entered; of a sequence only the first element is. *)
Inductive visits : json -> Z -> Prop :=
| visits_root : forall data, visits data 0
| visits_member : forall members key value n,
    In (key, value) members -> is_container value = true ->
    visits value n -> visits (JDict members) (n + 1)
| visits_sample : forall sample_item rest n,
    is_container sample_item = true ->
    visits sample_item n -> visits (JList (sample_item :: rest)) (n + 1).

(** Depth where only descending out of a mapping counts and a sequence is
    transparent: every element of a sequence is looked at and none of them
    adds a level. *)
Fixpoint mapping_nesting_depth (data : json) : Z :=
  match data with
  | JDict members =>
      fold_right
        (fun kv m =>
           Z.max m (if is_container (snd kv)
                    then 1 + mapping_nesting_depth (snd kv) else 0))
        0 members
  | JList elems =>
      fold_right (fun x m => Z.max m (mapping_nesting_depth x)) 0 elems
  | _ => 0
  end.

(** Induction on documents, with the hypothesis for every element of a
    sequence and every member of a mapping. *)
Definition json_ind (P : json -> Prop)
    (HNull : P JNull)
    (HBool : forall b, P (JBool b))
    (HInt : forall n, P (JInt n))
    (HFloat : forall lit, P (JFloat lit))
    (HStr : forall s, P (JStr s))
    (HList : forall elems, Forall P elems -> P (JList elems))
    (HDict : forall members,
        Forall (fun kv => P (snd kv)) members -> P (JDict members))
    : forall data, P data :=
  fix go (data : json) : P data :=
    match data with
    | JNull => HNull
    | JBool b => HBool b
    | JInt n => HInt n
    | JFloat lit => HFloat lit
    | JStr s => HStr s
    | JList elems =>
        HList elems
          ((fix go_elems (l : list json) : Forall P l :=
              match l with
              | [] => Forall_nil _
              | x :: l' => Forall_cons x (go x) (go_elems l')
              end) elems)
    | JDict members =>
        HDict members
          ((fix go_members (l : list (string * json))
              : Forall (fun kv => P (snd kv)) l :=
              match l with
              | [] => Forall_nil _
              | kv :: l' =>
                  @Forall_cons _ (fun kv => P (snd kv)) kv l'
                               (go (snd kv)) (go_members l')
              end) members)
    end.

(* ================================================================== *)
(** ** Measures of a summary and of a document *)

(** The number of observations of a kind. *)
Definition nobs (k : string) (fs : list field_info) : Z :=
  Z.of_nat (List.length (filter (fun fi => String.eqb (f_type fi) k) fs)).

(** The number of members of a mapping that are sequences. *)
Definition sequence_members (members : list (string * json)) : Z :=
  Z.of_nat
    (List.length
       (filter (fun kv => String.eqb (type_name (snd kv)) "list") members)).

(** The counts of a summary: distinct kinds, each counted at least once. *)
Definition counts_ok (tys : PyDict.t Z) : Prop :=
  PyDict.wf tys /\ forall k v, PyDict.lookup tys k = Some v -> 1 <= v.

(** The dots of a path, and one more when the path is not empty. *)
Definition path_rank (path : string) : Z :=
  count_dots path + (if String.eqb path "" then 0 else 1).

(** No key that the walk joins into a path contains a dot. *)
Fixpoint visited_keys_dotless (data : json) : bool :=
  match data with
  | JDict members =>
      forallb
        (fun kv =>
           (count_dots (fst kv) =? 0)
           && (if is_container (snd kv)
               then visited_keys_dotless (snd kv) else true))
        members
  | JList (sample_item :: _) =>
      if is_container sample_item
      then visited_keys_dotless sample_item else true
  | _ => true
  end.

(* ================================================================== *)
(** ** Contents of the index and numbers of the report *)

(** [field_types[p][t]], and the empty list where the path or the kind is
    missing. *)
Definition files_at (field_types : FieldTypes) (p t : string) : list string :=
  PyDict.get (PyDict.get field_types p PyDict.empty) t [].

(** What one file appends to [field_types[p][t]]: its title, once for
    every observation of kind [t] at path [p]. *)
Definition titles_for (p t : string) (jf : json_file) : list string :=
  match jf_load jf with
  | Loaded data =>
      map (fun _ => jf_title jf)
          (filter (fun fi => String.eqb (f_path fi) p
                             && String.eqb (f_type fi) t)
                  (fields (analyze_json_structure data "" None 0)))
  | LoadError _ => []
  end.

(** The line printed for one file. *)
Definition printed_for (jf : json_file) : printed_line :=
  match jf_load jf with
  | Loaded _ => PrintAnalyzed (jf_path jf)
  | LoadError e => PrintError (jf_path jf) e
  end.

(** [len(field_types) - len(inconsistent_fields)], the number the report
    gives for the fields of consistent format. *)
Definition consistent_field_count (field_types : FieldTypes) : Z :=
  PyDict.len field_types
  - Z.of_nat
      (List.length
         (map fst (filter (fun pt => 1 <? PyDict.len (snd pt))
                          (PyDict.items field_types)))).

(** No path of the index has an empty dictionary of kinds. *)
Definition kinds_nonempty (field_types : FieldTypes) : Prop :=
  forall p tys, PyDict.lookup field_types p = Some tys -> tys <> [].

(* ================================================================== *)
(** ** The report of one file: [generate_markdown_report] *)

(** [str(n)] for an integer, as the f-strings write it. *)
Definition str_of_int (n : Z) : string :=
  NilZero.string_of_int (Z.to_int n).

Definition newline : string := String (Ascii.ascii_of_nat 10) EmptyString.

(** The order of the keys [(x["level"], x["path"])], tuples being compared
    component after component. *)
Definition level_path_leb (a b : field_info) : bool :=
  (f_level a <? f_level b)
  || ((f_level a =? f_level b) && String.leb (f_path a) (f_path b)).

(** [sorted(fields, key=...)]: insertion into an ordered list, observations
    of equal key keeping their order. *)
Fixpoint insert_field (x : field_info) (l : list field_info)
    : list field_info :=
  match l with
  | [] => [x]
  | y :: l' => if level_path_leb x y then x :: l else y :: insert_field x l'
  end.

Definition sorted_by_level_path (fs : list field_info) : list field_info :=
  fold_right insert_field [] fs.

(** [s * n]: the empty string when [n] is not positive. *)
Fixpoint repeat_string (s : string) (n : nat) : string :=
  match n with
  | O => EmptyString
  | S n' => s ++ repeat_string s n'
  end.

Definition str_mul (s : string) (n : Z) : string :=
  repeat_string s (Z.to_nat n).

(** [s.split(".")] *)
Fixpoint split_dots (s : string) : list string :=
  match s with
  | EmptyString => [EmptyString]
  | String c s' =>
      if Ascii.eqb c "."%char then EmptyString :: split_dots s'
      else match split_dots s' with
           | seg :: rest => String c seg :: rest
           | [] => [String c EmptyString]
           end
  end.

(** [s.split(".")[-1]] *)
Definition last_part (s : string) : string :=
  List.last (split_dots s) EmptyString.

(** One line of the tree: [f"{indent}├── {current_name} ({field['type']})"]. *)
Definition tree_line (field : field_info) : string :=
  let indent := str_mul "  " (f_level field) in
  let path_parts := split_dots (f_path field) in
  let current_name := List.last path_parts EmptyString in
  indent ++ "├── " ++ current_name ++ " (" ++ f_type field ++ ")".

Definition generate_tree_structure (sorted_fields : list field_info)
    : list string :=
  map tree_line sorted_fields.

(** The list [report] before it is joined.  [file_title] is the base name
    of the file without its extension, which the function computes with
    [os.path]. *)
Definition markdown_report_lines (file_title : string)
    (analysis_result : Result) : list string :=
  let report :=
    [ "# JSON结构分析报告: " ++ file_title; "";
      "## 数据类型统计"; "";
      "| 数据类型 | 出现次数 |";
      "| -------- | -------- |" ] in
  let type_rows :=
    map (fun tc => "| " ++ fst tc ++ " | " ++ str_of_int (snd tc) ++ " |")
        (PyDict.items (types analysis_result)) in
  let report := List.app report type_rows in
  let report :=
    List.app report
      [ ""; "## 字段层级结构"; "";
        "| 层级 | 字段路径 | 数据类型 |"; "|--|--|--|" ] in
  let sorted_fields := sorted_by_level_path (fields analysis_result) in
  let field_rows :=
    map (fun field =>
           "| " ++ str_of_int (f_level field) ++ " | " ++ f_path field
           ++ " | " ++ f_type field ++ " |")
        sorted_fields in
  let report := List.app report field_rows in
  let report :=
    List.app report [ ""; "## 树形结构可视化"; ""; "```" ] in
  let report := List.app report (generate_tree_structure sorted_fields) in
  List.app report [ "```" ].

Definition generate_markdown_report (file_title : string)
    (analysis_result : Result) : string :=
  String.concat newline (markdown_report_lines file_title analysis_result).

(** The order in which the table of fields is written. *)
Definition level_path_le (a b : field_info) : Prop :=
  f_level a < f_level b
  \/ (f_level a = f_level b /\ String.leb (f_path a) (f_path b) = true).

(** The document with every scalar replaced by a fixed one of its kind
    and every sequence cut after its first element. *)
Fixpoint skeleton (data : json) : json :=
  match data with
  | JNull => JNull
  | JBool _ => JBool false
  | JInt _ => JInt 0
  | JFloat _ => JFloat EmptyString
  | JStr _ => JStr EmptyString
  | JList [] => JList []
  | JList (sample_item :: _) => JList [skeleton sample_item]
  | JDict members =>
      JDict (map (fun kv => (fst kv, skeleton (snd kv))) members)
  end.

(** The deepest observation of [docA]. *)
Definition deepest_of_docA : field_info :=
  {| f_path := "b[0].c"; f_type := "str"; f_level := 2 |}.

(* ================================================================== *)
(** * Facts about dictionaries *)

Section PyDictFacts.
Variable V : Type.
Implicit Types (d : PyDict.t V) (k : string) (v : V).

Lemma pydict_lookup_set_eq d k v :
  PyDict.lookup (PyDict.set d k v) k = Some v.
Proof.
  induction d as [|[k' v'] d IH]; simpl.
  - now rewrite String.eqb_refl.
  - destruct (String.eqb k' k) eqn:E; simpl; rewrite E; auto.
Qed.

Lemma pydict_lookup_set_ne d k k' v :
  k <> k' -> PyDict.lookup (PyDict.set d k v) k' = PyDict.lookup d k'.
Proof.
  intros Hne. induction d as [|[k0 v0] d IH]; simpl.
  - apply String.eqb_neq in Hne. now rewrite Hne.
  - destruct (String.eqb k0 k) eqn:E; simpl.
    + apply String.eqb_eq in E; subst k0.
      apply String.eqb_neq in Hne. now rewrite Hne.
    + now rewrite IH.
Qed.

Lemma pydict_lookup_None d k :
  PyDict.lookup d k = None <-> ~ In k (PyDict.keys d).
Proof.
  induction d as [|[k' v'] d IH]; simpl.
  - tauto.
  - destruct (String.eqb_spec k' k) as [->|Hne].
    + split; [discriminate | intros H; exfalso; apply H; now left].
    + rewrite IH. tauto.
Qed.

Lemma pydict_lookup_In d k v :
  PyDict.lookup d k = Some v -> In (k, v) d.
Proof.
  induction d as [|[k' v'] d IH]; simpl; [discriminate|].
  destruct (String.eqb_spec k' k) as [->|Hne].
  - intros [= ->]. now left.
  - intros H. right. auto.
Qed.

Lemma pydict_In_lookup d k v :
  PyDict.wf d -> In (k, v) d -> PyDict.lookup d k = Some v.
Proof.
  unfold PyDict.wf.
  induction d as [|[k' v'] d IH]; simpl; [tauto|].
  intros Hnd [Heq|Hin].
  - inversion Heq; subst. now rewrite String.eqb_refl.
  - inversion Hnd as [|? ? Hnotin Hnd']; subst.
    destruct (String.eqb_spec k' k) as [->|Hne].
    + exfalso. apply Hnotin. change k with (fst (k, v)).
      now apply in_map.
    + auto.
Qed.

Lemma pydict_keys_set d k v k' :
  In k' (PyDict.keys (PyDict.set d k v)) <-> k' = k \/ In k' (PyDict.keys d).
Proof.
  induction d as [|[k0 v0] d IH]; simpl.
  - intuition.
  - destruct (String.eqb_spec k0 k) as [->|Hne]; simpl.
    + intuition.
    + rewrite IH. intuition.
Qed.

Lemma pydict_set_present d k v :
  In k (PyDict.keys d) -> PyDict.keys (PyDict.set d k v) = PyDict.keys d.
Proof.
  induction d as [|[k0 v0] d IH]; simpl; [tauto|].
  destruct (String.eqb_spec k0 k) as [->|Hne]; simpl; auto.
  intros [Heq|Hin]; [congruence|]. now rewrite IH.
Qed.

Lemma pydict_set_absent d k v :
  ~ In k (PyDict.keys d) -> PyDict.set d k v = (d ++ [(k, v)])%list.
Proof.
  induction d as [|[k0 v0] d IH]; simpl; auto.
  intros Hnot.
  destruct (String.eqb_spec k0 k) as [->|Hne]; [tauto|].
  rewrite IH; tauto.
Qed.

Lemma pydict_wf_set d k v :
  PyDict.wf d -> PyDict.wf (PyDict.set d k v).
Proof.
  unfold PyDict.wf. intros Hnd.
  destruct (in_dec string_dec k (PyDict.keys d)) as [Hin|Hnot].
  - now rewrite pydict_set_present.
  - rewrite pydict_set_absent by assumption.
    unfold PyDict.keys. rewrite map_app. simpl.
    apply NoDup_app; auto.
    + constructor; [tauto | constructor].
    + intros x Hx [<-|[]]. contradiction.
Qed.

Lemma pydict_of_items_from (l : list (string * V)) d :
  NoDup (PyDict.keys (d ++ l)%list) ->
  fold_left (fun d kv => PyDict.set d (fst kv) (snd kv)) l d = (d ++ l)%list.
Proof.
  revert d. induction l as [|[k v] l IH]; intros d Hnd; simpl.
  - now rewrite app_nil_r.
  - rewrite pydict_set_absent.
    + rewrite IH; rewrite <- app_assoc; auto.
    + unfold PyDict.keys in *. rewrite map_app in Hnd. simpl in Hnd.
      apply NoDup_remove_2 in Hnd. intros Hin. apply Hnd.
      apply in_or_app. now left.
Qed.

Lemma pydict_of_items_wf (l : list (string * V)) :
  NoDup (PyDict.keys l) -> PyDict.of_items l = l.
Proof.
  intros Hnd. unfold PyDict.of_items, PyDict.empty.
  now rewrite pydict_of_items_from.
Qed.
End PyDictFacts.

(* ================================================================== *)
(** * Facts about the walk *)

Lemma analyze_None data path level :
  analyze_json_structure data path None level
  = analyze_json_structure data path (Some fresh_result) level.
Proof. destruct data; reflexivity. Qed.

Lemma analyze_scalar data path r level :
  is_container data = false ->
  analyze_json_structure data path (Some r) level = enter r level.
Proof. destruct data; simpl; intros H; try discriminate; reflexivity. Qed.

Lemma analyze_dict members path r level :
  analyze_json_structure (JDict members) path (Some r) level
  = fold_left (visit_member path level) members (enter r level).
Proof.
  simpl. fold (enter r level). generalize (enter r level) as acc.
  induction members as [|[key value] members IH]; intros acc; simpl.
  - reflexivity.
  - apply IH.
Qed.

Lemma analyze_list_nil path r level :
  analyze_json_structure (JList []) path (Some r) level
  = {| fields := fields r;
       types := incr_type (types r) "list";
       max_level := Z.max (max_level r) level |}.
Proof. reflexivity. Qed.

Lemma analyze_list_cons sample_item rest path r level :
  analyze_json_structure (JList (sample_item :: rest)) path (Some r) level
  = descend sample_item (sample_path_of path)
      {| fields := (fields r
                    ++ [ {| f_path := sample_path_of path;
                            f_type := type_name sample_item;
                            f_level := level |} ])%list;
         types := incr_type (types r) "list";
         max_level := Z.max (max_level r) level |}
      level.
Proof. reflexivity. Qed.

Lemma count_incr_type tys name k :
  count (incr_type tys name) k
  = count tys k + (if String.eqb name k then 1 else 0).
Proof.
  unfold count, incr_type, PyDict.get.
  destruct (String.eqb_spec name k) as [->|Hne].
  - rewrite pydict_lookup_set_eq. reflexivity.
  - rewrite pydict_lookup_set_ne by assumption. lia.
Qed.

(** A loop whose body only appends to [fields] and only adds to the
    counts does so as a whole. *)
Section LoopFrames.
Variable A : Type.
Variable step : Result -> A -> Result.

Lemma loop_fields_frame (l : list A) :
  Forall (fun a => forall r,
              fields (step r a)
              = (fields r ++ fields (step fresh_result a))%list) l ->
  forall r,
    fields (fold_left step l r)
    = (fields r
       ++ List.concat (map (fun a => fields (step fresh_result a)) l))%list.
Proof.
  induction 1 as [|a l Ha _ IH]; intros r; simpl.
  - now rewrite app_nil_r.
  - rewrite IH, Ha. now rewrite app_assoc.
Qed.

Lemma loop_count_frame k (l : list A) :
  Forall (fun a => forall r,
              count (types (step r a)) k
              = count (types r) k
                + count (types (step fresh_result a)) k) l ->
  forall r,
    count (types (fold_left step l r)) k
    = count (types r) k
      + sumZ (map (fun a => count (types (step fresh_result a)) k) l).
Proof.
  induction 1 as [|a l Ha _ IH]; intros r; simpl.
  - lia.
  - rewrite IH, Ha. lia.
Qed.
End LoopFrames.

(** The observations appended by a call do not depend on the result
    passed in. *)
Lemma fields_frame data :
  forall path r level,
    fields (analyze_json_structure data path (Some r) level)
    = (fields r
       ++ fields (analyze_json_structure data path None level))%list.
Proof.
  induction data as [| | | | |elems IH|members IH] using json_ind;
    intros path r level; rewrite analyze_None;
    try (rewrite !analyze_scalar by reflexivity; simpl;
         now rewrite app_nil_r).
  - destruct elems as [|x rest].
    + rewrite !analyze_list_nil. simpl. now rewrite app_nil_r.
    + rewrite !analyze_list_cons. unfold descend.
      inversion IH as [|? ? Hx _]; subst.
      destruct (is_container x); simpl.
      * rewrite Hx. rewrite (Hx _ {| fields := _ |}). simpl.
        now rewrite <- app_assoc.
      * reflexivity.
  - rewrite !analyze_dict.
    assert (Hstep : Forall (fun kv => forall r0,
               fields (visit_member path level r0 kv)
               = (fields r0
                  ++ fields (visit_member path level fresh_result kv))%list)
               members).
    { eapply Forall_impl; [|exact IH]. intros [key value] Hv r0.
      unfold visit_member. simpl in *.
      destruct (is_container value); simpl.
      - rewrite Hv. rewrite (Hv _ {| fields := _ |}). simpl.
        now rewrite <- app_assoc.
      - reflexivity. }
    rewrite (@loop_fields_frame _ _ _ Hstep).
    rewrite (@loop_fields_frame _ _ _ Hstep (enter fresh_result level)).
    reflexivity.
Qed.

Lemma count_empty k : count PyDict.empty k = 0.
Proof. reflexivity. Qed.

(** Likewise for the counts of kinds. *)
Lemma count_frame k data :
  forall path r level,
    count (types (analyze_json_structure data path (Some r) level)) k
    = count (types r) k
      + count (types (analyze_json_structure data path None level)) k.
Proof.
  induction data as [| | | | |elems IH|members IH] using json_ind;
    intros path r level; rewrite analyze_None;
    try (rewrite !analyze_scalar by reflexivity;
         unfold enter, fresh_result; cbn [types];
         rewrite count_empty; lia).
  - destruct elems as [|x rest].
    + rewrite !analyze_list_nil. unfold fresh_result. cbn [types].
      rewrite !count_incr_type, count_empty. lia.
    + rewrite !analyze_list_cons. unfold descend.
      inversion IH as [|? ? Hx _]; subst.
      destruct (is_container x); unfold fresh_result; cbn [types fields].
      * rewrite Hx. rewrite (Hx _ {| fields := _ |}). cbn [types].
        rewrite !count_incr_type, count_empty. lia.
      * rewrite !count_incr_type, count_empty. lia.
  - rewrite !analyze_dict.
    assert (Hstep : Forall (fun kv => forall r0,
               count (types (visit_member path level r0 kv)) k
               = count (types r0) k
                 + count (types (visit_member path level fresh_result kv)) k)
               members).
    { eapply Forall_impl; [|exact IH]. intros [key value] Hv r0.
      unfold visit_member. cbn [fst snd] in *.
      destruct (is_container value); unfold fresh_result; cbn [types fields].
      - rewrite Hv. rewrite (Hv _ {| fields := _ |}). cbn [types].
        rewrite !count_incr_type, count_empty. lia.
      - rewrite !count_incr_type, count_empty. lia. }
    rewrite (@loop_count_frame _ _ k _ Hstep).
    rewrite (@loop_count_frame _ _ k _ Hstep (enter fresh_result level)).
    unfold enter, fresh_result. cbn [types]. rewrite count_empty. lia.
Qed.

Lemma visit_member_fields path level r kv :
  fields (visit_member path level r kv)
  = (fields r
     ++ {| f_path := child_path path (fst kv);
           f_type := type_name (snd kv);
           f_level := level |}
        :: fields (descend (snd kv) (child_path path (fst kv))
                           fresh_result level))%list.
Proof.
  unfold visit_member, descend.
  destruct (is_container (snd kv)); cbn [fields].
  - rewrite fields_frame.
    rewrite (fields_frame _ _ fresh_result). cbn [fields fresh_result].
    now rewrite <- app_assoc.
  - reflexivity.
Qed.

Lemma analyze_dict_fields members path r level :
  fields (analyze_json_structure (JDict members) path (Some r) level)
  = (fields r
     ++ List.concat
          (map (fun kv =>
                  {| f_path := child_path path (fst kv);
                     f_type := type_name (snd kv);
                     f_level := level |}
                  :: fields (descend (snd kv) (child_path path (fst kv))
                                     fresh_result level))
               members))%list.
Proof.
  rewrite analyze_dict.
  change (fields r) with (fields (enter r level)).
  generalize (enter r level) as acc.
  induction members as [|kv members IH]; intros acc; simpl.
  - now rewrite app_nil_r.
  - rewrite IH, visit_member_fields. now rewrite <- app_assoc.
Qed.

Lemma analyze_list_fields sample_item rest path r level :
  fields (analyze_json_structure (JList (sample_item :: rest)) path
                                 (Some r) level)
  = (fields r
     ++ {| f_path := sample_path_of path;
           f_type := type_name sample_item;
           f_level := level |}
        :: fields (descend sample_item (sample_path_of path)
                           fresh_result level))%list.
Proof.
  rewrite analyze_list_cons. unfold descend.
  destruct (is_container sample_item); cbn [fields].
  - rewrite fields_frame.
    rewrite (fields_frame _ _ fresh_result). cbn [fields fresh_result].
    now rewrite <- app_assoc.
  - reflexivity.
Qed.

Lemma analyze_list_count sample_item rest path r level k :
  count (types (analyze_json_structure (JList (sample_item :: rest)) path
                                       (Some r) level)) k
  = count (types r) k
    + (if String.eqb "list" k then 1 else 0)
    + count (types (descend sample_item (sample_path_of path)
                            fresh_result level)) k.
Proof.
  rewrite analyze_list_cons. unfold descend.
  destruct (is_container sample_item); cbn [types].
  - rewrite count_frame.
    rewrite (count_frame _ _ _ fresh_result). cbn [types fresh_result].
    rewrite count_incr_type, count_empty. lia.
  - rewrite count_incr_type. cbn [types fresh_result].
    rewrite count_empty. lia.
Qed.

(** *** Paths of nested observations *)

Lemma string_length_append (a b : string) :
  String.length (a ++ b) = (String.length a + String.length b)%nat.
Proof. induction a as [|c a IH]; simpl; [reflexivity | now rewrite IH]. Qed.

Lemma child_path_length path key :
  path <> "" ->
  (String.length path < String.length (child_path path key))%nat.
Proof.
  intros Hne. unfold child_path.
  destruct (String.eqb_spec path "") as [->|_]; [congruence|].
  rewrite !string_length_append. simpl. lia.
Qed.

Lemma sample_path_length path :
  (String.length path < String.length (sample_path_of path))%nat.
Proof. unfold sample_path_of. rewrite string_length_append. simpl. lia. Qed.

Lemma longer_not_empty (a b : string) :
  (String.length a < String.length b)%nat -> b <> "".
Proof. intros H ->. simpl in H. lia. Qed.

(** Below a non-empty path every observation has a strictly longer path. *)
Lemma fields_below_path data :
  forall path level fi,
    path <> "" ->
    In fi (fields (analyze_json_structure data path None level)) ->
    (String.length path < String.length (f_path fi))%nat.
Proof.
  induction data as [| | | | |elems IH|members IH] using json_ind;
    intros path level fi Hne; rewrite analyze_None;
    try (rewrite analyze_scalar by reflexivity; simpl; tauto).
  - destruct elems as [|x rest]; [rewrite analyze_list_nil; simpl; tauto|].
    rewrite analyze_list_fields. cbn [fields fresh_result app].
    inversion IH as [|? ? Hx _]; subst.
    pose proof (sample_path_length path) as Hlen.
    intros [<-|Hin]; [exact Hlen|].
    unfold descend in Hin. destruct (is_container x); [|destruct Hin].
    rewrite <- analyze_None in Hin.
    apply Hx in Hin; [lia | eapply longer_not_empty; eassumption].
  - rewrite analyze_dict_fields. cbn [fields fresh_result app].
    intros Hin. apply in_concat in Hin. destruct Hin as [obs [Hobs Hin]].
    apply in_map_iff in Hobs. destruct Hobs as [kv [<- Hkv]].
    rewrite Forall_forall in IH. specialize (IH kv Hkv).
    pose proof (child_path_length (fst kv) Hne) as Hlen.
    destruct Hin as [<-|Hin]; [exact Hlen|].
    unfold descend in Hin.
    destruct (is_container (snd kv)); [|destruct Hin].
    rewrite <- analyze_None in Hin.
    apply IH in Hin; [lia | eapply longer_not_empty; eassumption].
Qed.

(** *** The running maximum *)

Lemma walk_depth_nonneg data : 0 <= walk_depth data.
Proof.
  induction data as [| | | | |elems IH|members IH] using json_ind;
    simpl; try lia.
  - destruct elems as [|x rest]; [lia|].
    inversion IH; subst. destruct (is_container x); lia.
  - induction members as [|kv members IHm]; simpl; [lia|].
    inversion IH; subst. specialize (IHm H2). lia.
Qed.

Lemma max_level_walk data :
  forall path r level,
    max_level (analyze_json_structure data path (Some r) level)
    = Z.max (max_level r) (level + walk_depth data).
Proof.
  induction data as [| | | | |elems IH|members IH] using json_ind;
    intros path r level;
    try (rewrite analyze_scalar by reflexivity; simpl; f_equal; lia).
  - destruct elems as [|x rest].
    + rewrite analyze_list_nil. simpl. f_equal; lia.
    + rewrite analyze_list_cons. unfold descend. simpl walk_depth.
      inversion IH as [|? ? Hx _]; subst.
      pose proof (walk_depth_nonneg x) as Hnn.
      destruct (is_container x); cbn [max_level].
      * rewrite Hx. cbn [max_level]. lia.
      * f_equal; lia.
  - rewrite analyze_dict.
    assert (Hfold : forall acc,
               level <= max_level acc ->
               max_level (fold_left (visit_member path level) members acc)
               = Z.max (max_level acc) (level + walk_depth (JDict members))).
    { simpl walk_depth.
      induction members as [|kv members IHm]; intros acc Hacc; simpl.
      - lia.
      - inversion IH as [|? ? Hkv Hrest]; subst.
        pose proof (walk_depth_nonneg (snd kv)) as Hnn.
        assert (Hstep : max_level (visit_member path level acc kv)
                        = Z.max (max_level acc)
                            (level + (if is_container (snd kv)
                                      then 1 + walk_depth (snd kv) else 0))).
        { unfold visit_member. destruct (is_container (snd kv)).
          - rewrite Hkv. cbn [max_level]. lia.
          - cbn [max_level]. lia. }
        rewrite (IHm Hrest) by (rewrite Hstep; lia).
        rewrite Hstep. destruct (is_container (snd kv)); lia. }
    rewrite Hfold by (simpl; lia).
    pose proof (walk_depth_nonneg (JDict members)).
    simpl max_level. lia.
Qed.

Lemma deepest_member_le members key value :
  In (key, value) members ->
  is_container value = true ->
  1 + walk_depth value <= walk_depth (JDict members).
Proof.
  intros Hin Hc. simpl.
  induction members as [|kv members IH]; simpl; [destruct Hin|].
  destruct Hin as [->|Hin].
  - simpl. rewrite Hc. lia.
  - specialize (IH Hin). lia.
Qed.

Lemma deepest_member_attained members :
  walk_depth (JDict members) = 0
  \/ exists key value,
       In (key, value) members /\ is_container value = true
       /\ walk_depth (JDict members) = 1 + walk_depth value.
Proof.
  induction members as [|[key value] members IH]; simpl; [now left|].
  simpl in IH.
  set (rest_depth := fold_right _ 0 members) in *.
  pose proof (walk_depth_nonneg value) as Hnn.
  destruct (is_container value) eqn:Hc.
  - right.
    destruct (Z.max_spec (1 + walk_depth value) rest_depth) as [[Hlt E]|[Hle E]].
    + destruct IH as [H0|[k' [v' [Hin [Hc' E']]]]]; [lia|].
      exists k', v'. rewrite E. auto.
    + exists key, value. rewrite E. auto.
  - destruct IH as [H0|[k' [v' [Hin [Hc' E']]]]].
    + left. lia.
    + right. exists k', v'. split; [now right|]. split; [assumption|].
      pose proof (walk_depth_nonneg v'). lia.
Qed.

Lemma visits_walk_depth data : visits data (walk_depth data).
Proof.
  induction data as [| | | | |elems IH|members IH] using json_ind;
    try apply visits_root.
  - destruct elems as [|x rest]; [apply visits_root|].
    simpl. inversion IH; subst.
    destruct (is_container x) eqn:Hc; [|apply visits_root].
    replace (1 + walk_depth x) with (walk_depth x + 1) by lia.
    now apply visits_sample.
  - destruct (deepest_member_attained members)
      as [->|[key [value [Hin [Hc ->]]]]]; [apply visits_root|].
    replace (1 + walk_depth value) with (walk_depth value + 1) by lia.
    eapply visits_member; eauto.
    rewrite Forall_forall in IH. exact (IH _ Hin).
Qed.

Lemma visits_le_walk_depth data n : visits data n -> n <= walk_depth data.
Proof.
  induction 1 as [data|members key value n Hin Hc _ IH|x rest n Hc _ IH].
  - apply walk_depth_nonneg.
  - pose proof (deepest_member_le _ _ _ Hin Hc). lia.
  - simpl. rewrite Hc. lia.
Qed.

(* ================================================================== *)
(** * The walk: depth, sequences and scalar roots *)

(** C2 (as stated) fails: on [[[1]]], a document without any mapping, the
    walk reports depth 1 where the nesting of mappings is 0, so passing
    through a sequence does raise the reported depth; and on
    [[1, {"a": {"b": 1}}]] it reports 0 where the nesting of mappings is
    1, the second element never being visited. *)
Lemma max_level_counts_sequences :
  (max_level (analyze_json_structure nested_sequences "" None 0) = 1
   /\ mapping_nesting_depth nested_sequences = 0)
  /\ (max_level (analyze_json_structure mappings_behind_sample "" None 0) = 0
      /\ mapping_nesting_depth mappings_behind_sample = 1).
Proof. repeat split; vm_compute; reflexivity. Qed.

(** C2 (amended): for every document the reported [max_level] is the
    greatest number of containers entered one inside the other by the
    walk, where entering a container member of a mapping and entering a
    container first element of a sequence each count one level, and the
    other elements of a sequence are not visited. *)
Theorem max_level_is_deepest_visit (data : json) :
  let m := max_level (analyze_json_structure data "" None 0) in
  m = walk_depth data
  /\ visits data m
  /\ (forall n, visits data n -> n <= m).
Proof.
  assert (E : max_level (analyze_json_structure data "" None 0)
              = walk_depth data).
  { rewrite analyze_None, max_level_walk. cbn [max_level fresh_result].
    pose proof (walk_depth_nonneg data). lia. }
  cbv zeta. rewrite E. split; [reflexivity|]. split.
  - apply visits_walk_depth.
  - intros n. apply visits_le_walk_depth.
Qed.

(** C6: a call on an empty sequence appends no observation and adds one
    to the count of ["list"]; a call on a non-empty sequence appends one
    observation, at the [[0]] path of its first element, followed only by
    what the walk of that element appends below that path, whatever the
    other elements are, and the branch adds one to the count of ["list"]
    besides what the walk of the first element counts. *)
Theorem sequence_branch_observations (path : string) (r : Result) (level : Z) :
  (fields (analyze_json_structure (JList []) path (Some r) level) = fields r
   /\ forall k,
        count (types (analyze_json_structure (JList []) path (Some r) level)) k
        = count (types r) k + (if String.eqb "list" k then 1 else 0))
  /\ (forall sample_item rest,
        let res := analyze_json_structure (JList (sample_item :: rest)) path
                                          (Some r) level in
        let below := descend sample_item (sample_path_of path)
                             fresh_result level in
        fields res
        = (fields r
           ++ {| f_path := sample_path_of path;
                 f_type := type_name sample_item;
                 f_level := level |} :: fields below)%list
        /\ (forall fi, In fi (fields below) ->
                       f_path fi <> sample_path_of path)
        /\ res = analyze_json_structure (JList [sample_item]) path
                                        (Some r) level
        /\ forall k,
             count (types res) k
             = count (types r) k + (if String.eqb "list" k then 1 else 0)
               + count (types below) k).
Proof.
  split.
  - rewrite analyze_list_nil. cbn [fields types]. split; [reflexivity|].
    intros k. apply count_incr_type.
  - intros sample_item rest res below. subst res below.
    split; [apply analyze_list_fields|]. split; [|split].
    + intros fi Hin Heq. unfold descend in Hin.
      destruct (is_container sample_item); [|destruct Hin].
      rewrite <- analyze_None in Hin.
      apply fields_below_path in Hin.
      * rewrite Heq in Hin. lia.
      * eapply longer_not_empty. apply sample_path_length.
    + reflexivity.
    + intros k. apply analyze_list_count.
Qed.

(** C7: in the sequence branch the count of a kind grows by one for
    ["list"], the sequence itself, and by what the walk of the first
    element counts; the observation of the first element adds nothing
    for its own kind.  When that element is a scalar the counts change
    by the ["list"] entry alone.  So walking [{"b": [{"c": 1}]}] records
    a ["dict"] observation at [b[0]] while [types] has no ["dict"] key. *)
Theorem sampled_element_not_counted :
  (forall sample_item rest path r level,
      let res := analyze_json_structure (JList (sample_item :: rest)) path
                                        (Some r) level in
      In {| f_path := sample_path_of path;
            f_type := type_name sample_item;
            f_level := level |} (fields res)
      /\ (forall k,
             count (types res) k
             = count (types r) k + (if String.eqb "list" k then 1 else 0)
               + count (types (descend sample_item (sample_path_of path)
                                       fresh_result level)) k)
      /\ (is_container sample_item = false ->
          types res = incr_type (types r) "list"
          /\ count (types res) (type_name sample_item)
             = count (types r) (type_name sample_item)))
  /\ (let res := analyze_json_structure docC "" None 0 in
      In {| f_path := "b[0]"; f_type := "dict"; f_level := 1 |} (fields res)
      /\ PyDict.lookup (types res) "dict" = None
      /\ count (types res) "dict"
         < Z.of_nat (List.length
                       (filter (fun fi => String.eqb (f_type fi) "dict")
                               (fields res)))).
Proof.
  split.
  - intros sample_item rest path r level res. subst res. split; [|split].
    + rewrite analyze_list_fields. apply in_or_app. right. now left.
    + intros k. apply analyze_list_count.
    + intros Hs. rewrite analyze_list_cons. unfold descend. rewrite Hs.
      cbn [types]. split; [reflexivity|].
      rewrite count_incr_type.
      destruct sample_item; try discriminate; simpl; lia.
  - vm_compute. repeat split; auto.
Qed.

(* ================================================================== *)
(** * Facts about sets of values *)

Section PySetFacts.
Variable A : Type.
Variable dec : forall x y : A, {x = y} + {x <> y}.

Lemma py_set_from_In (l s : list A) x :
  In x (fold_left (fun s x => set_add dec x s) l s) <-> In x s \/ In x l.
Proof.
  revert s. induction l as [|a l IH]; intros s; simpl.
  - tauto.
  - rewrite IH, set_add_iff. intuition.
Qed.

Lemma py_set_from_NoDup (l s : list A) :
  NoDup s -> NoDup (fold_left (fun s x => set_add dec x s) l s).
Proof.
  revert s. induction l as [|a l IH]; intros s Hs; simpl; auto.
  apply IH. now apply set_add_nodup.
Qed.

Lemma py_set_In (l : list A) x : In x (py_set dec l) <-> In x l.
Proof. unfold py_set. rewrite py_set_from_In. simpl. tauto. Qed.

Lemma py_set_NoDup (l : list A) : NoDup (py_set dec l).
Proof. apply py_set_from_NoDup. constructor. Qed.

Lemma NoDup_all_equal (s : list A) a :
  NoDup s -> (forall x, In x s -> x = a) -> (List.length s <= 1)%nat.
Proof.
  intros Hnd Hall. destruct s as [|x [|y s]]; simpl; try lia.
  exfalso. inversion Hnd as [|? ? Hnot _]; subst. apply Hnot.
  rewrite (Hall x), (Hall y); simpl; auto.
Qed.

Lemma NoDup_two_distinct (s : list A) :
  NoDup s -> (2 <= List.length s)%nat ->
  exists x y, In x s /\ In y s /\ x <> y.
Proof.
  intros Hnd Hlen. destruct s as [|x [|y s]]; simpl in Hlen; try lia.
  exists x, y. simpl. repeat split; auto.
  intros ->. inversion Hnd as [|? ? Hnot _]; subst. apply Hnot. now left.
Qed.

Lemma two_distinct_length (s : list A) x y :
  In x s -> In y s -> x <> y -> (2 <= List.length s)%nat.
Proof.
  intros Hx Hy Hne. destruct s as [|a [|b s]]; simpl in *; try lia.
  all: intuition congruence.
Qed.

(** [len(set(l)) == 1]: [l] is not empty and its members are equal. *)
Lemma py_set_len_one (l : list A) :
  (set_len (py_set dec l) =? 1) = true
  <-> l <> [] /\ forall x y, In x l -> In y l -> x = y.
Proof.
  unfold set_len. rewrite Z.eqb_eq.
  pose proof (py_set_NoDup l) as Hnd.
  split.
  - intros Hlen.
    destruct (py_set dec l) as [|a [|b s]] eqn:E; simpl in Hlen; try lia.
    assert (Hin : forall x, In x l -> x = a).
    { intros x Hx. apply (proj2 (py_set_In l x)) in Hx. rewrite E in Hx.
      destruct Hx as [<-|[]]. reflexivity. }
    split.
    + intros ->. discriminate E.
    + intros x y Hx Hy. rewrite (Hin x Hx), (Hin y Hy). reflexivity.
  - intros [Hne Hall]. destruct l as [|a l]; [congruence|].
    assert (Hle : (List.length (py_set dec (a :: l)) <= 1)%nat).
    { apply NoDup_all_equal with (a := a); auto.
      intros x Hx. apply (proj1 (py_set_In (a :: l) x)) in Hx.
      apply Hall; [exact Hx | now left]. }
    assert (Hin : In a (py_set dec (a :: l)))
      by (apply (proj2 (py_set_In (a :: l) a)); now left).
    destruct (py_set dec (a :: l)); simpl in *; [tauto | lia].
Qed.

(** [len(set(l)) > 1]: two members of [l] differ. *)
Lemma py_set_len_many (l : list A) :
  (1 <? set_len (py_set dec l)) = true
  <-> exists x y, In x l /\ In y l /\ x <> y.
Proof.
  unfold set_len. rewrite Z.ltb_lt.
  pose proof (py_set_NoDup l) as Hnd.
  split.
  - intros Hlen.
    destruct (NoDup_two_distinct Hnd) as [x [y [Hx [Hy Hne]]]]; [lia|].
    exists x, y.
    split; [exact (proj1 (py_set_In l x) Hx)|].
    split; [exact (proj1 (py_set_In l y) Hy) | exact Hne].
  - intros [x [y [Hx [Hy Hne]]]].
    apply (proj2 (py_set_In l x)) in Hx.
    apply (proj2 (py_set_In l y)) in Hy.
    pose proof (@two_distinct_length _ _ _ Hx Hy Hne). lia.
Qed.
End PySetFacts.

(* ================================================================== *)
(** * Comparing the depths of a batch *)

Lemma keys_map_snd (V W : Type) (f : string * V -> W) (d : PyDict.t V) :
  PyDict.keys (map (fun kv => (fst kv, f kv)) d) = PyDict.keys d.
Proof.
  unfold PyDict.keys. rewrite map_map. apply map_ext. reflexivity.
Qed.

Lemma max_levels_of_wf all_results :
  PyDict.wf all_results ->
  max_levels_of all_results
  = map (fun fr => (fst fr, max_level (snd fr))) all_results.
Proof.
  intros Hwf. unfold max_levels_of, PyDict.items.
  apply pydict_of_items_wf. now rewrite keys_map_snd.
Qed.

Lemma type_stats_of_wf all_results :
  PyDict.wf all_results ->
  type_stats_of all_results
  = map (fun fr => (fst fr, types (snd fr))) all_results.
Proof.
  intros Hwf. unfold type_stats_of, PyDict.items.
  apply pydict_of_items_wf. now rewrite keys_map_snd.
Qed.

Lemma analyze_consistency_nonempty all_results :
  all_results <> [] ->
  analyze_consistency all_results
  = ConsistencyReport (consistency_data_of all_results).
Proof. destruct all_results; [congruence | reflexivity]. Qed.

Lemma is_level_consistent_iff all_results :
  PyDict.wf all_results ->
  all_results <> [] ->
  (is_level_consistent (consistency_data_of all_results) = true
   <-> forall f1 r1 f2 r2,
         In (f1, r1) all_results -> In (f2, r2) all_results ->
         max_level r1 = max_level r2).
Proof.
  intros Hwf Hne.
  assert (Hlc : is_level_consistent (consistency_data_of all_results)
                = (set_len (py_set Z.eq_dec
                              (map (fun fr => max_level (snd fr)) all_results))
                   =? 1)).
  { unfold consistency_data_of. cbn [is_level_consistent].
    rewrite max_levels_of_wf by assumption.
    unfold PyDict.values. now rewrite map_map. }
  rewrite Hlc, py_set_len_one. split.
  - intros [_ Hall] f1 r1 f2 r2 H1 H2.
    apply Hall; apply in_map_iff;
      [exists (f1, r1) | exists (f2, r2)]; auto.
  - intros Hall. split.
    + destruct all_results; [congruence | discriminate].
    + intros x y Hx Hy.
      apply in_map_iff in Hx. destruct Hx as [[f1 r1] [<- H1]].
      apply in_map_iff in Hy. destruct Hy as [[f2 r2] [<- H2]].
      simpl. eauto.
Qed.

(** C5: on a non-empty batch the depths are reported consistent exactly
    when the [max_level] of every two documents is the same number; a
    batch of one document is consistent. *)
Theorem levels_consistent_iff_equal (all_results : PyDict.t Result) :
  PyDict.wf all_results ->
  all_results <> [] ->
  exists d,
    analyze_consistency all_results = ConsistencyReport d
    /\ (is_level_consistent d = true
        <-> forall f1 r1 f2 r2,
              In (f1, r1) all_results -> In (f2, r2) all_results ->
              max_level r1 = max_level r2)
    /\ ((List.length all_results = 1)%nat -> is_level_consistent d = true).
Proof.
  intros Hwf Hne.
  exists (consistency_data_of all_results).
  split; [now apply analyze_consistency_nonempty|].
  pose proof (is_level_consistent_iff Hwf Hne) as Hiff.
  split; [exact Hiff|].
  intros Hone. apply Hiff. intros f1 r1 f2 r2 H1 H2.
  destruct all_results as [|fr [|fr' rest]]; try discriminate Hone.
  destruct H1 as [H1|[]], H2 as [H2|[]]. congruence.
Qed.

(* ================================================================== *)
(** * Comparing the counts of kinds of a batch *)

Lemma fold_left_map_comp (A B C : Type) (f : A -> C -> A) (g : B -> C)
    (l : list B) (a : A) :
  fold_left f (map g l) a = fold_left (fun a x => f a (g x)) l a.
Proof. revert a. induction l as [|x l IH]; intros a; simpl; auto. Qed.

Lemma keys_map_const (V : Type) (c : V) (l : list string) :
  PyDict.keys (map (fun t => (t, c)) l) = l.
Proof.
  unfold PyDict.keys. rewrite map_map. simpl. apply map_id.
Qed.

Lemma lookup_map_const (V : Type) (c : V) (l : list string) k :
  In k l -> PyDict.lookup (map (fun t => (t, c)) l) k = Some c.
Proof.
  induction l as [|t l IH]; simpl; [tauto|].
  intros Hin. destruct (String.eqb_spec t k) as [_|Hne]; [reflexivity|].
  destruct Hin as [->|Hin]; [congruence | auto].
Qed.

Lemma lookup_Some_keys (V : Type) (d : PyDict.t V) k v :
  PyDict.lookup d k = Some v -> In k (PyDict.keys d).
Proof.
  intros H. apply pydict_lookup_In in H.
  change k with (fst (k, v)). now apply in_map.
Qed.

Lemma keys_lookup_Some (V : Type) (d : PyDict.t V) k :
  In k (PyDict.keys d) -> exists v, PyDict.lookup d k = Some v.
Proof.
  intros Hin. destruct (PyDict.lookup d k) as [v|] eqn:E; [eauto|].
  apply pydict_lookup_None in E. contradiction.
Qed.

(** *** [all_types] *)

Lemma all_types_from_In (vals : list (PyDict.t Z)) (s : list string) k :
  In k (fold_left
          (fun s tys =>
             fold_left (fun s k => set_add string_dec k s)
                       (PyDict.keys tys) s)
          vals s)
  <-> In k s \/ exists tys, In tys vals /\ In k (PyDict.keys tys).
Proof.
  revert s. induction vals as [|tys vals IH]; intros s; simpl.
  - split; [auto | intros [H|[tys [[] _]]]; exact H].
  - rewrite IH, py_set_from_In. split.
    + intros [[H|H]|[tys' [H1 H2]]]; eauto.
    + intros [H|[tys' [[<-|H1] H2]]]; eauto.
Qed.

Lemma all_types_from_NoDup (vals : list (PyDict.t Z)) (s : list string) :
  NoDup s ->
  NoDup (fold_left
           (fun s tys =>
              fold_left (fun s k => set_add string_dec k s)
                        (PyDict.keys tys) s)
           vals s).
Proof.
  revert s. induction vals as [|tys vals IH]; intros s Hs; simpl; auto.
  apply IH. now apply py_set_from_NoDup.
Qed.

Lemma all_types_of_NoDup type_stats : NoDup (all_types_of type_stats).
Proof. apply all_types_from_NoDup. constructor. Qed.

Lemma all_types_of_In all_results k :
  PyDict.wf all_results ->
  (In k (all_types_of (type_stats_of all_results))
   <-> exists file r, In (file, r) all_results /\ In k (PyDict.keys (types r))).
Proof.
  intros Hwf. unfold all_types_of. rewrite all_types_from_In.
  rewrite type_stats_of_wf by assumption.
  unfold PyDict.values. rewrite map_map. simpl. split.
  - intros [[]|[tys [Hin Hk]]].
    apply in_map_iff in Hin. destruct Hin as [[file r] [<- Hin]]. eauto.
  - intros [file [r [Hin Hk]]]. right. exists (types r). split; [|exact Hk].
    apply in_map_iff. exists (file, r). auto.
Qed.

(** *** [type_counts] *)

Lemma set_count_lookup tc t file c t' :
  PyDict.lookup (set_count tc t file c) t'
  = if String.eqb t t'
    then option_map (fun counts => PyDict.set counts file c)
                    (PyDict.lookup tc t')
    else PyDict.lookup tc t'.
Proof.
  unfold set_count.
  destruct (String.eqb_spec t t') as [<-|Hne].
  - destruct (PyDict.lookup tc t) as [counts|] eqn:E.
    + now rewrite pydict_lookup_set_eq.
    + now rewrite E.
  - destruct (PyDict.lookup tc t) as [counts|] eqn:E; [|reflexivity].
    now rewrite pydict_lookup_set_ne.
Qed.

Lemma set_count_keys tc t file c :
  PyDict.keys (set_count tc t file c) = PyDict.keys tc.
Proof.
  unfold set_count.
  destruct (PyDict.lookup tc t) as [counts|] eqn:E; [|reflexivity].
  apply pydict_set_present. eapply lookup_Some_keys; eassumption.
Qed.

Section CountRow.
Variables (file : string) (tys : PyDict.t Z).

Lemma count_row_keys ts tc :
  PyDict.keys (count_row file tys ts tc) = PyDict.keys tc.
Proof.
  revert tc. induction ts as [|t ts IH]; intros tc; [reflexivity|].
  unfold count_row in *. simpl. rewrite IH. apply set_count_keys.
Qed.

Lemma count_row_other ts tc t' :
  ~ In t' ts ->
  PyDict.lookup (count_row file tys ts tc) t' = PyDict.lookup tc t'.
Proof.
  revert tc. induction ts as [|t ts IH]; intros tc Hnot; [reflexivity|].
  unfold count_row in *. simpl. rewrite IH by (simpl in Hnot; tauto).
  rewrite set_count_lookup.
  destruct (String.eqb_spec t t') as [->|Hne]; [|reflexivity].
  exfalso. apply Hnot. now left.
Qed.

Lemma count_row_lookup ts tc t' :
  NoDup ts -> In t' ts ->
  PyDict.lookup (count_row file tys ts tc) t'
  = option_map (fun counts => PyDict.set counts file (PyDict.get tys t' 0))
               (PyDict.lookup tc t').
Proof.
  revert tc. induction ts as [|t ts IH]; intros tc Hnd Hin; [destruct Hin|].
  inversion Hnd as [|? ? Hnot Hnd']; subst.
  change (count_row file tys (t :: ts) tc)
    with (count_row file tys ts
            (set_count tc t file (PyDict.get tys t 0))).
  destruct (string_dec t t') as [->|Hne].
  - rewrite count_row_other by assumption.
    rewrite set_count_lookup, String.eqb_refl. reflexivity.
  - destruct Hin as [Heq|Hin]; [congruence|].
    rewrite IH by assumption. rewrite set_count_lookup.
    apply String.eqb_neq in Hne. now rewrite Hne.
Qed.
End CountRow.

Lemma type_counts_loop_keys all_types stats :
  forall tc,
    PyDict.keys
      (fold_left
         (fun tc ft => count_row (fst ft) (snd ft) all_types tc) stats tc)
    = PyDict.keys tc.
Proof.
  induction stats as [|ft stats IH]; intros tc; simpl; auto.
  rewrite IH. apply count_row_keys.
Qed.

Lemma type_counts_loop_lookup all_types stats t' :
  NoDup all_types -> In t' all_types ->
  forall tc,
    PyDict.lookup
      (fold_left
         (fun tc ft => count_row (fst ft) (snd ft) all_types tc) stats tc) t'
    = option_map
        (fun counts =>
           fold_left
             (fun counts ft =>
                PyDict.set counts (fst ft) (PyDict.get (snd ft) t' 0))
             stats counts)
        (PyDict.lookup tc t').
Proof.
  intros Hnd Hin.
  induction stats as [|ft stats IH]; intros tc; simpl.
  - now destruct (PyDict.lookup tc t').
  - rewrite IH. rewrite count_row_lookup by assumption.
    now destruct (PyDict.lookup tc t').
Qed.

Lemma type_counts_of_keys all_types stats :
  NoDup all_types ->
  PyDict.keys (type_counts_of all_types stats) = all_types.
Proof.
  intros Hnd. unfold type_counts_of, PyDict.items.
  rewrite type_counts_loop_keys.
  rewrite pydict_of_items_wf; rewrite keys_map_const; auto.
Qed.

Lemma type_counts_of_lookup all_types stats t' :
  NoDup all_types -> In t' all_types -> PyDict.wf stats ->
  PyDict.lookup (type_counts_of all_types stats) t'
  = Some (map (fun ft => (fst ft, PyDict.get (snd ft) t' 0)) stats).
Proof.
  intros Hnd Hin Hwf. unfold type_counts_of, PyDict.items.
  rewrite type_counts_loop_lookup by assumption.
  rewrite pydict_of_items_wf by (rewrite keys_map_const; auto).
  rewrite lookup_map_const by assumption. simpl. f_equal.
  rewrite <- (pydict_of_items_wf
                (map (fun ft => (fst ft, PyDict.get (snd ft) t' 0)) stats))
    by (rewrite keys_map_snd; exact Hwf).
  unfold PyDict.of_items. now rewrite fold_left_map_comp.
Qed.

(** *** [type_consistency] *)

Lemma type_consistency_loop_lookup (l : list (string * PyDict.t Z)) k :
  forall tcs,
    PyDict.lookup
      (fold_left
         (fun type_consistency tc =>
            if uneven (snd tc)
            then PyDict.set type_consistency (fst tc) false
            else type_consistency)
         l tcs) k
    = if existsb (fun tc => String.eqb (fst tc) k && uneven (snd tc)) l
      then Some false
      else PyDict.lookup tcs k.
Proof.
  induction l as [|tc l IH]; intros tcs; simpl; auto.
  rewrite IH.
  destruct (existsb _ l); [now rewrite orb_true_r|]. rewrite orb_false_r.
  destruct (uneven (snd tc)).
  - rewrite andb_true_r.
    destruct (String.eqb_spec (fst tc) k) as [->|Hne].
    + apply pydict_lookup_set_eq.
    + now apply pydict_lookup_set_ne.
  - now rewrite andb_false_r.
Qed.

Lemma existsb_key_absent (V : Type) (p : V -> bool) (l : PyDict.t V) k :
  ~ In k (PyDict.keys l) ->
  existsb (fun kv => String.eqb (fst kv) k && p (snd kv)) l = false.
Proof.
  induction l as [|[k' v] l IH]; simpl; auto.
  intros Hnot. rewrite IH by tauto.
  destruct (String.eqb_spec k' k) as [->|Hne]; [tauto | reflexivity].
Qed.

Lemma existsb_key_lookup (V : Type) (p : V -> bool) (l : PyDict.t V) k :
  PyDict.wf l ->
  existsb (fun kv => String.eqb (fst kv) k && p (snd kv)) l
  = match PyDict.lookup l k with Some v => p v | None => false end.
Proof.
  unfold PyDict.wf.
  induction l as [|[k' v] l IH]; simpl; auto.
  intros Hnd. inversion Hnd as [|? ? Hnot Hnd']; subst.
  destruct (String.eqb_spec k' k) as [->|Hne]; simpl.
  - rewrite existsb_key_absent by assumption. now rewrite orb_false_r.
  - auto.
Qed.

(** What [analyze_consistency] records for a kind of [all_types]: whether
    the counts of the documents, zero where the kind is missing, are all
    the same. *)
Lemma type_consistency_lookup all_results k :
  PyDict.wf all_results ->
  In k (all_types_of (type_stats_of all_results)) ->
  PyDict.lookup (type_consistency (consistency_data_of all_results)) k
  = Some (negb (1 <? set_len
                       (py_set Z.eq_dec
                          (map (fun fr => count (types (snd fr)) k)
                               all_results)))).
Proof.
  intros Hwf Hin.
  unfold consistency_data_of. cbn [type_consistency].
  set (stats := type_stats_of all_results) in *.
  set (tys := all_types_of stats) in *.
  assert (Hnd : NoDup tys) by apply all_types_of_NoDup.
  assert (Hstats : PyDict.wf stats).
  { unfold stats. rewrite type_stats_of_wf by assumption.
    unfold PyDict.wf. now rewrite keys_map_snd. }
  unfold type_consistency_of, PyDict.items.
  rewrite type_consistency_loop_lookup.
  rewrite existsb_key_lookup
    by (unfold PyDict.wf; rewrite type_counts_of_keys; assumption).
  rewrite type_counts_of_lookup by assumption.
  rewrite pydict_of_items_wf by (rewrite keys_map_const; auto).
  rewrite lookup_map_const by assumption.
  assert (Hvals : PyDict.values
                    (map (fun ft => (fst ft, PyDict.get (snd ft) k 0)) stats)
                  = map (fun fr => count (types (snd fr)) k) all_results).
  { unfold stats. rewrite type_stats_of_wf by assumption.
    unfold PyDict.values. rewrite !map_map. reflexivity. }
  unfold uneven. rewrite Hvals.
  now destruct (1 <? _).
Qed.


Lemma mem_true_key (V : Type) (d : PyDict.t V) k :
  PyDict.mem d k = true <-> In k (PyDict.keys d).
Proof.
  unfold PyDict.mem. split.
  - destruct (PyDict.lookup d k) eqn:E; [|discriminate].
    intros _. eapply lookup_Some_keys; eassumption.
  - intros Hin. apply keys_lookup_Some in Hin. destruct Hin as [v ->].
    reflexivity.
Qed.

(** The counts of a kind differ between two documents exactly when the
    kind is recorded as inconsistent. *)
Lemma type_consistency_false_iff all_results k :
  PyDict.wf all_results ->
  In k (all_types_of (type_stats_of all_results)) ->
  (PyDict.lookup (type_consistency (consistency_data_of all_results)) k
   = Some false
   <-> exists f1 r1 f2 r2,
         In (f1, r1) all_results /\ In (f2, r2) all_results
         /\ count (types r1) k <> count (types r2) k).
Proof.
  intros Hwf Hin. rewrite type_consistency_lookup by assumption.
  destruct (1 <? _) eqn:E; simpl.
  - apply py_set_len_many in E. destruct E as [x [y [Hx [Hy Hne]]]].
    apply in_map_iff in Hx. destruct Hx as [[f1 r1] [<- H1]].
    apply in_map_iff in Hy. destruct Hy as [[f2 r2] [<- H2]].
    split; [intros _ | reflexivity]. exists f1, r1, f2, r2. auto.
  - split; [discriminate|]. intros [f1 [r1 [f2 [r2 [H1 [H2 Hne]]]]]].
    exfalso.
    assert (Hmany : (1 <? set_len
                            (py_set Z.eq_dec
                               (map (fun fr => count (types (snd fr)) k)
                                    all_results))) = true).
    { apply py_set_len_many.
      exists (count (types r1) k), (count (types r2) k).
      repeat split; auto; apply in_map_iff;
        [exists (f1, r1) | exists (f2, r2)]; auto. }
    congruence.
Qed.

(** C4 (as stated) fails: in the batch of [docA] and [docB] the kind
    ["dict"] is observed, at [b[0]] in [docA], and every document has the
    same count of it, zero; yet the comparison has no entry for ["dict"],
    the kinds it compares being the keys of [types], and the first
    element of a sequence being observed without being counted. *)
Lemma observed_kind_without_entry :
  In {| f_path := "b[0]"; f_type := "dict"; f_level := 1 |}
     (fields (analyze_json_structure docA "" None 0))
  /\ (forall f r, In (f, r) resultsAB -> PyDict.get (types r) "dict" 0 = 0)
  /\ exists d,
       analyze_consistency resultsAB = ConsistencyReport d
       /\ ~ In "dict" (all_types d)
       /\ PyDict.lookup (type_consistency d) "dict" = None.
Proof.
  split; [vm_compute; auto 6 | split].
  - intros f r Hin. vm_compute in Hin.
    destruct Hin as [Heq|[Heq|[]]]; inversion Heq; subst; reflexivity.
  - eexists. split; [reflexivity | split].
    + vm_compute. intros [H|[H|[H|[]]]]; discriminate H.
    + vm_compute. reflexivity.
Qed.

(** C4 (amended): for a kind that some document of the batch counts, that
    is, a kind that is a key of the [types] of some document, the kind is
    reported consistent exactly when every two documents have the same
    count of it, a document without the kind counting zero; a kind one
    document counts and another lacks is reported inconsistent. *)
Theorem kind_consistent_iff_same_count
    (all_results : PyDict.t Result) (kind : string) :
  PyDict.wf all_results ->
  (exists file r,
      In (file, r) all_results /\ PyDict.mem (types r) kind = true) ->
  exists d b,
    analyze_consistency all_results = ConsistencyReport d
    /\ PyDict.lookup (type_consistency d) kind = Some b
    /\ (b = true
        <-> forall f1 r1 f2 r2,
              In (f1, r1) all_results -> In (f2, r2) all_results ->
              PyDict.get (types r1) kind 0 = PyDict.get (types r2) kind 0)
    /\ ((exists f1 r1 f2 r2,
            In (f1, r1) all_results /\ In (f2, r2) all_results
            /\ PyDict.get (types r1) kind 0 <> 0
            /\ PyDict.lookup (types r2) kind = None) ->
        b = false).
Proof.
  intros Hwf [file [r [Hin Hmem]]].
  assert (Hk : In kind (all_types_of (type_stats_of all_results))).
  { apply all_types_of_In; [assumption|]. exists file, r.
    split; [assumption|]. now apply mem_true_key. }
  assert (Hne : all_results <> []) by (intros ->; destruct Hin).
  exists (consistency_data_of all_results).
  pose proof (type_consistency_lookup kind Hwf Hk) as Hlk.
  pose proof (type_consistency_false_iff kind Hwf Hk) as Hfalse.
  rewrite Hlk in Hfalse.
  eexists. split; [now apply analyze_consistency_nonempty|].
  split; [exact Hlk|].
  fold (count (types r) kind) in *.
  set (b := negb _) in *.
  split; [split|].
  - intros Hb f1 r1 f2 r2 H1 H2.
    destruct (Z.eq_dec (PyDict.get (types r1) kind 0)
                       (PyDict.get (types r2) kind 0)) as [|Hd]; [assumption|].
    assert (Some b = Some false) by (apply Hfalse; exists f1, r1, f2, r2; auto).
    congruence.
  - intros Hall. destruct b eqn:Eb; [reflexivity|].
    destruct (proj1 Hfalse eq_refl) as [f1 [r1 [f2 [r2 [H1 [H2 Hd]]]]]].
    exfalso. apply Hd. unfold count. eauto.
  - intros [f1 [r1 [f2 [r2 [H1 [H2 [Hpos Hnone]]]]]]].
    assert (Some b = Some false); [|congruence].
    apply Hfalse. exists f1, r1, f2, r2. repeat split; auto.
    unfold count, PyDict.get at 2. rewrite Hnone. exact Hpos.
Qed.

(* ================================================================== *)
(** * Folding documents into the index *)

Lemma kinds_at_set_same (ft : FieldTypes) p tys :
  kinds_at (PyDict.set ft p tys) p = PyDict.keys tys.
Proof. unfold kinds_at. now rewrite pydict_lookup_set_eq. Qed.

Lemma kinds_at_set_other (ft : FieldTypes) p p' tys :
  p <> p' -> kinds_at (PyDict.set ft p tys) p' = kinds_at ft p'.
Proof. intros H. unfold kinds_at. now rewrite pydict_lookup_set_ne. Qed.

(** The inner dictionary which [record_field] writes at the path. *)
Lemma record_field_at title (ft : FieldTypes) fi :
  exists tys files,
    record_field title ft fi
    = PyDict.set (if PyDict.mem ft (f_path fi) then ft
                  else PyDict.set ft (f_path fi) PyDict.empty)
                 (f_path fi)
                 (PyDict.set tys (f_type fi) files)
    /\ (forall t, In t (PyDict.keys tys)
                  <-> In t (kinds_at ft (f_path fi)) \/ t = f_type fi)
    /\ (NoDup (kinds_at ft (f_path fi)) -> NoDup (PyDict.keys tys)).
Proof.
  unfold record_field.
  set (p := f_path fi). set (k := f_type fi).
  set (ft1 := if PyDict.mem ft p then ft else PyDict.set ft p PyDict.empty).
  set (tys0 := PyDict.get ft1 p PyDict.empty).
  assert (H0 : PyDict.keys tys0 = kinds_at ft p).
  { unfold tys0, ft1, kinds_at, PyDict.get, PyDict.mem.
    destruct (PyDict.lookup ft p) as [x|] eqn:E.
    - now rewrite E.
    - now rewrite pydict_lookup_set_eq. }
  set (tys1 := if PyDict.mem tys0 k then tys0 else PyDict.set tys0 k []).
  exists tys1, (PyDict.get tys1 k [] ++ [title])%list.
  split; [reflexivity|]. split.
  - intros t. rewrite <- H0. unfold tys1.
    destruct (PyDict.mem tys0 k) eqn:Em.
    + apply mem_true_key in Em. split; [auto|].
      intros [H| ->]; assumption.
    + rewrite pydict_keys_set. tauto.
  - rewrite <- H0. intros Hnd. unfold tys1.
    destruct (PyDict.mem tys0 k); [assumption|].
    now apply pydict_wf_set.
Qed.

Lemma record_field_kinds title (ft : FieldTypes) fi p t :
  In t (kinds_at (record_field title ft fi) p)
  <-> In t (kinds_at ft p) \/ (f_path fi = p /\ f_type fi = t).
Proof.
  destruct (record_field_at title ft fi) as [tys [files [-> [Hk _]]]].
  destruct (string_dec (f_path fi) p) as [<-|Hne].
  - rewrite kinds_at_set_same, pydict_keys_set, Hk.
    split; [intros [->|[H| ->]]; auto | intros [H|[_ <-]]; auto].
  - rewrite kinds_at_set_other by assumption.
    destruct (PyDict.mem ft (f_path fi)).
    + tauto.
    + rewrite kinds_at_set_other by assumption. tauto.
Qed.

Lemma record_field_NoDup_kinds title (ft : FieldTypes) fi :
  (forall p, NoDup (kinds_at ft p)) ->
  forall p, NoDup (kinds_at (record_field title ft fi) p).
Proof.
  intros Hnd p.
  destruct (record_field_at title ft fi) as [tys [files [-> [_ Hw]]]].
  destruct (string_dec (f_path fi) p) as [<-|Hne].
  - rewrite kinds_at_set_same. apply pydict_wf_set. apply Hw, Hnd.
  - rewrite kinds_at_set_other by assumption.
    destruct (PyDict.mem ft (f_path fi)); [apply Hnd|].
    rewrite kinds_at_set_other by assumption. apply Hnd.
Qed.

Lemma record_field_keys title (ft : FieldTypes) fi p :
  In p (PyDict.keys (record_field title ft fi))
  <-> In p (PyDict.keys ft) \/ f_path fi = p.
Proof.
  destruct (record_field_at title ft fi) as [tys [files [-> _]]].
  rewrite pydict_keys_set.
  destruct (PyDict.mem ft (f_path fi)) eqn:Em.
  - split; [intros [->|H]; auto | intros [H| <-]; auto].
  - rewrite pydict_keys_set. split.
    + intros [->|[->|H]]; auto.
    + intros [H| <-]; auto.
Qed.

Lemma record_field_wf title (ft : FieldTypes) fi :
  PyDict.wf ft -> PyDict.wf (record_field title ft fi).
Proof.
  intros Hwf.
  destruct (record_field_at title ft fi) as [tys [files [-> _]]].
  apply pydict_wf_set.
  destruct (PyDict.mem ft (f_path fi)); [assumption|].
  now apply pydict_wf_set.
Qed.

(** The index is well formed: distinct paths, and distinct kinds at
    every path. *)
Lemma record_fields_index_wf title fs :
  forall ft, index_wf ft -> index_wf (fold_left (record_field title) fs ft).
Proof.
  induction fs as [|fi fs IH]; intros ft [Hwf Hnd]; simpl; [now split|].
  apply IH. split.
  - now apply record_field_wf.
  - now apply record_field_NoDup_kinds.
Qed.

Lemma record_fields_kinds title fs :
  forall ft p t,
    In t (kinds_at (fold_left (record_field title) fs ft) p)
    <-> In t (kinds_at ft p)
        \/ exists fi, In fi fs /\ f_path fi = p /\ f_type fi = t.
Proof.
  induction fs as [|fi fs IH]; intros ft p t; simpl.
  - split; [auto | intros [H|[fi [[] _]]]; exact H].
  - rewrite IH, record_field_kinds. split.
    + intros [[H|[H1 H2]]|[fi' [H1 H2]]]; eauto 6.
    + intros [H|[fi' [[<-|H1] [H2 H3]]]]; eauto 6.
Qed.

Lemma record_fields_keys title fs :
  forall ft p,
    In p (PyDict.keys (fold_left (record_field title) fs ft))
    <-> In p (PyDict.keys ft) \/ exists fi, In fi fs /\ f_path fi = p.
Proof.
  induction fs as [|fi fs IH]; intros ft p; simpl.
  - split; [auto | intros [H|[fi [[] _]]]; exact H].
  - rewrite IH, record_field_keys. split.
    + intros [[H|H]|[fi' [H1 H2]]]; eauto 6.
    + intros [H|[fi' [[<-|H1] H2]]]; eauto 6.
Qed.

Lemma process_files_index_wf l :
  forall st,
    index_wf (field_types st) ->
    index_wf (field_types (fold_left process_file l st)).
Proof.
  induction l as [|jf l IH]; intros st Hst; simpl; [assumption|].
  apply IH. unfold process_file.
  destruct (jf_load jf); cbn [field_types]; [|assumption].
  now apply record_fields_index_wf.
Qed.

Lemma process_files_kinds l :
  forall st p t,
    In t (kinds_at (field_types (fold_left process_file l st)) p)
    <-> In t (kinds_at (field_types st) p) \/ observed l p t.
Proof.
  unfold observed.
  induction l as [|jf l IH]; intros st p t; simpl.
  - split; [auto | intros [H|[jf [d [fi [[] _]]]]]; exact H].
  - rewrite IH. unfold process_file.
    destruct (jf_load jf) as [data|e] eqn:E; cbn [field_types].
    + rewrite record_fields_kinds. split.
      * intros [[H|[fi [H1 [H2 H3]]]]|[jf' [d [fi [H1 H2]]]]]; auto.
        -- right. exists jf, data, fi. auto.
        -- right. exists jf', d, fi. tauto.
      * intros [H|[jf' [d [fi [[<-|H1] [H2 [H3 [H4 H5]]]]]]]]; auto.
        -- left. right. exists fi. rewrite E in H2. inversion H2; subst. auto.
        -- right. exists jf', d, fi. auto.
    + split.
      * intros [H|[jf' [d [fi [H1 H2]]]]]; auto.
        right. exists jf', d, fi. tauto.
      * intros [H|[jf' [d [fi [[<-|H1] [H2 H3]]]]]]; auto.
        -- congruence.
        -- right. exists jf', d, fi. auto.
Qed.

Lemma process_files_keys l :
  forall st p,
    In p (PyDict.keys (field_types (fold_left process_file l st)))
    <-> In p (PyDict.keys (field_types st)) \/ exists t, observed l p t.
Proof.
  unfold observed.
  induction l as [|jf l IH]; intros st p; simpl.
  - split; [auto | intros [H|[t [jf [d [fi [[] _]]]]]]; exact H].
  - rewrite IH. unfold process_file.
    destruct (jf_load jf) as [data|e] eqn:E; cbn [field_types].
    + rewrite record_fields_keys. split.
      * intros [[H|[fi [H1 H2]]]|[t [jf' [d [fi [H1 H2]]]]]]; auto.
        -- right. exists (f_type fi), jf, data, fi. auto.
        -- right. exists t, jf', d, fi. tauto.
      * intros [H|[t [jf' [d [fi [[<-|H1] [H2 [H3 [H4 H5]]]]]]]]]; auto.
        -- left. right. exists fi. rewrite E in H2. inversion H2; subst. auto.
        -- right. exists t, jf', d, fi. auto.
    + split.
      * intros [H|[t [jf' [d [fi [H1 H2]]]]]]; auto.
        right. exists t, jf', d, fi. tauto.
      * intros [H|[t [jf' [d [fi [[<-|H1] [H2 H3]]]]]]]; auto.
        -- congruence.
        -- right. exists t, jf', d, fi. auto.
Qed.

(** *** The table of the report *)

Lemma insert_sorted_In x l y :
  In y (insert_sorted x l) <-> y = x \/ In y l.
Proof.
  induction l as [|z l IH]; simpl.
  - intuition.
  - destruct (String.leb x z); simpl; [intuition|].
    rewrite IH. intuition.
Qed.

Lemma sorted_In l y : In y (sorted l) <-> In y l.
Proof.
  induction l as [|x l IH]; simpl; [tauto|].
  rewrite insert_sorted_In, IH. intuition.
Qed.

Lemma make_row_consistent (ft : FieldTypes) p :
  is_consistent (make_row ft p)
  = (Z.of_nat (List.length (kinds_at ft p)) =? 1).
Proof.
  unfold make_row, kinds_at, PyDict.get, PyDict.len, PyDict.keys.
  cbn [is_consistent].
  destruct (PyDict.lookup ft p); [now rewrite length_map | reflexivity].
Qed.

Lemma inconsistent_fields_In (ft : FieldTypes) p :
  PyDict.wf ft ->
  (In p (map fst (filter (fun pt => 1 <? PyDict.len (snd pt))
                         (PyDict.items ft)))
   <-> (1 < List.length (kinds_at ft p))%nat).
Proof.
  intros Hwf. unfold PyDict.items, kinds_at. rewrite in_map_iff. split.
  - intros [[p' tys] [Heq Hin]]. simpl in Heq. subst p'.
    apply filter_In in Hin. destruct Hin as [Hin Hlen].
    rewrite (@pydict_In_lookup _ _ _ _ Hwf Hin).
    simpl in Hlen. apply Z.ltb_lt in Hlen.
    unfold PyDict.len in Hlen. unfold PyDict.keys. rewrite length_map. lia.
  - destruct (PyDict.lookup ft p) as [tys|] eqn:E; [|simpl; lia].
    intros Hlen. exists (p, tys). split; [reflexivity|].
    apply filter_In. split; [now apply pydict_lookup_In|].
    simpl. apply Z.ltb_lt. unfold PyDict.len.
    unfold PyDict.keys in Hlen. rewrite length_map in Hlen. lia.
Qed.

Lemma NoDup_length_one (A : Type) (s : list A) :
  NoDup s ->
  (List.length s = 1%nat <-> exists k, forall t, In t s <-> t = k).
Proof.
  intros Hnd. split.
  - destruct s as [|k [|k' s]]; simpl; try discriminate. intros _.
    exists k. intros t. split; [intros [<-|[]]; reflexivity | auto].
  - intros [k Hk].
    assert (Hle : (List.length s <= 1)%nat).
    { apply NoDup_all_equal with (a := k); [assumption|].
      intros x Hx. now apply Hk. }
    assert (Hin : In k s) by now apply Hk.
    destruct s; simpl in *; [tauto | lia].
Qed.

Lemma initial_index_wf : index_wf (field_types initial_folder_state).
Proof. split; [constructor | intros p; constructor]. Qed.

(** C3: in the report of a batch, a path is marked consistent exactly
    when one kind, and no other, was observed at it in the documents of
    the batch, however many of them hold the path; it is listed among the
    inconsistent fields exactly when two different kinds were observed at
    it; and every path observed has its line. *)
Theorem consistent_iff_one_kind
    (json_files : list json_file) (d : field_report_data)
    (lines : list printed_line) :
  analys_json_folder json_files = Some (FieldReport d, lines) ->
  (forall row,
      In row (rows d) ->
      (is_consistent row = true
       <-> exists k, forall t, observed json_files (row_path row) t <-> t = k))
  /\ (forall p,
         In p (inconsistent_fields d)
         <-> exists t1 t2,
               t1 <> t2 /\ observed json_files p t1
               /\ observed json_files p t2)
  /\ (forall p,
         (exists t, observed json_files p t)
         <-> exists row, In row (rows d) /\ row_path row = p).
Proof.
  intros Hrep.
  set (ft := field_types (process_files json_files)).
  assert (Hidx : index_wf ft)
    by (apply process_files_index_wf, initial_index_wf).
  assert (Hkinds : forall p t, In t (kinds_at ft p) <-> observed json_files p t).
  { intros p t. unfold ft, process_files. rewrite process_files_kinds.
    simpl. tauto. }
  assert (Hkeys : forall p,
             In p (PyDict.keys ft) <-> exists t, observed json_files p t).
  { intros p. unfold ft, process_files. rewrite process_files_keys.
    simpl. tauto. }
  assert (Hd : rows d = map (make_row ft) (sorted (PyDict.keys ft))
               /\ inconsistent_fields d
                  = map fst (filter (fun pt => 1 <? PyDict.len (snd pt))
                                    (PyDict.items ft))).
  { unfold analys_json_folder in Hrep.
    destruct json_files as [|jf rest]; [discriminate|].
    fold ft in Hrep. unfold generate_field_consistency_report in Hrep.
    destruct ft as [|entry ft']; [discriminate|].
    inversion Hrep; subst d. split; reflexivity. }
  destruct Hd as [Hrows Hinc]. destruct Hidx as [Hwf Hnd].
  split; [|split].
  - intros row Hin. rewrite Hrows in Hin. apply in_map_iff in Hin.
    destruct Hin as [p [<- _]]. rewrite make_row_consistent.
    cbn [row_path make_row]. rewrite Z.eqb_eq.
    assert (Hone : List.length (kinds_at ft p) = 1%nat
                   <-> exists k, forall t, In t (kinds_at ft p) <-> t = k)
      by (apply NoDup_length_one, Hnd).
    split.
    + intros Hlen. destruct (proj1 Hone) as [k Hk]; [lia|].
      exists k. intros t. rewrite <- Hkinds. apply Hk.
    + intros [k Hk].
      assert (List.length (kinds_at ft p) = 1%nat); [|lia].
      apply Hone. exists k. intros t. rewrite Hkinds. apply Hk.
  - intros p. rewrite Hinc, inconsistent_fields_In by assumption. split.
    + intros Hlen.
      destruct (NoDup_two_distinct (Hnd p)) as [t1 [t2 [H1 [H2 Hne]]]];
        [lia|].
      exists t1, t2. rewrite <- !Hkinds. auto.
    + intros [t1 [t2 [Hne [H1 H2]]]]. rewrite <- Hkinds in H1, H2.
      pose proof (@two_distinct_length _ _ _ _ H1 H2 Hne). lia.
  - intros p. rewrite <- Hkeys, Hrows. split.
    + intros Hin. exists (make_row ft p). split; [|reflexivity].
      apply in_map. exact (proj2 (sorted_In _ _) Hin).
    + intros [row [Hin <-]]. apply in_map_iff in Hin.
      destruct Hin as [p [<- Hin]]. cbn [row_path make_row].
      exact (proj1 (sorted_In _ _) Hin).
Qed.

(* ================================================================== *)
(** * Failures, empty batches and scalar roots *)

Lemma process_files_same_index l :
  forall st1 st2,
    field_types st1 = field_types st2 ->
    all_files st1 = all_files st2 ->
    field_types (fold_left process_file l st1)
    = field_types (fold_left process_file (filter is_loaded l) st2)
    /\ all_files (fold_left process_file l st1)
       = all_files (fold_left process_file (filter is_loaded l) st2).
Proof.
  induction l as [|jf l IH]; intros st1 st2 Hft Haf; simpl; [auto|].
  destruct (is_loaded jf) eqn:El; unfold is_loaded in El;
    destruct (jf_load jf) as [data|e] eqn:E; try discriminate; simpl;
    apply IH; unfold process_file; rewrite E; cbn [field_types all_files];
    congruence.
Qed.

Lemma printed_kept l :
  forall st line,
    In line (printed st) -> In line (printed (fold_left process_file l st)).
Proof.
  induction l as [|jf l IH]; intros st line Hin; simpl; [assumption|].
  apply IH. unfold process_file.
  destruct (jf_load jf); cbn [printed]; apply in_or_app; now left.
Qed.

Lemma all_files_kept l :
  forall st title,
    In title (all_files st) ->
    In title (all_files (fold_left process_file l st)).
Proof.
  induction l as [|jf l IH]; intros st title Hin; simpl; [assumption|].
  apply IH. unfold process_file.
  destruct (jf_load jf); cbn [all_files]; [apply in_or_app; now left|].
  assumption.
Qed.

Lemma printed_error_In l :
  forall st jf e,
    In jf l -> jf_load jf = LoadError e ->
    In (PrintError (jf_path jf) e) (printed (fold_left process_file l st)).
Proof.
  induction l as [|jf' l IH]; intros st jf e Hin He; [destruct Hin|].
  simpl. destruct Hin as [->|Hin]; [|now apply IH].
  apply printed_kept. unfold process_file. rewrite He. cbn [printed].
  apply in_or_app. right. now left.
Qed.

Lemma printed_analyzed_In l :
  forall st jf data,
    In jf l -> jf_load jf = Loaded data ->
    In (PrintAnalyzed (jf_path jf)) (printed (fold_left process_file l st))
    /\ In (jf_title jf) (all_files (fold_left process_file l st)).
Proof.
  induction l as [|jf' l IH]; intros st jf data Hin Hd; [destruct Hin|].
  simpl. destruct Hin as [->|Hin]; [|now apply IH with (data := data)].
  split.
  - apply printed_kept. unfold process_file. rewrite Hd. cbn [printed].
    apply in_or_app. right. now left.
  - apply all_files_kept. unfold process_file. rewrite Hd. cbn [all_files].
    apply in_or_app. right. now left.
Qed.

(** C10: a document whose loading or analysis raises leaves the index and
    the list of files as they were and has its error printed; so the
    index and the list of files of a batch are those of its documents
    that did not fail, each of which is recorded, and the report is made
    from them. *)
Theorem failed_document_is_skipped (json_files : list json_file) :
  (forall st jf e,
      jf_load jf = LoadError e ->
      process_file st jf
      = {| field_types := field_types st;
           all_files := all_files st;
           printed := (printed st ++ [PrintError (jf_path jf) e])%list |})
  /\ field_types (process_files json_files)
     = field_types (process_files (filter is_loaded json_files))
  /\ all_files (process_files json_files)
     = all_files (process_files (filter is_loaded json_files))
  /\ (forall jf e,
         In jf json_files -> jf_load jf = LoadError e ->
         In (PrintError (jf_path jf) e) (printed (process_files json_files)))
  /\ (forall jf data,
         In jf json_files -> jf_load jf = Loaded data ->
         In (PrintAnalyzed (jf_path jf)) (printed (process_files json_files))
         /\ In (jf_title jf) (all_files (process_files json_files))
         /\ forall fi,
              In fi (fields (analyze_json_structure data "" None 0)) ->
              In (f_type fi)
                 (kinds_at (field_types (process_files json_files))
                           (f_path fi)))
  /\ (json_files <> [] ->
      exists lines,
        analys_json_folder json_files
        = Some (generate_field_consistency_report
                  (field_types (process_files (filter is_loaded json_files)))
                  (all_files (process_files (filter is_loaded json_files))),
                lines)).
Proof.
  assert (Hft : field_types (process_files json_files)
                = field_types (process_files (filter is_loaded json_files)))
    by (apply process_files_same_index; reflexivity).
  assert (Haf : all_files (process_files json_files)
                = all_files (process_files (filter is_loaded json_files)))
    by (apply process_files_same_index; reflexivity).
  split; [|split; [exact Hft | split; [exact Haf | split; [|split]]]].
  - intros st jf e He. unfold process_file. now rewrite He.
  - intros jf e Hin He. now apply printed_error_In.
  - intros jf data Hin Hd.
    destruct (printed_analyzed_In json_files initial_folder_state jf Hin Hd)
      as [Hp Ha].
    split; [exact Hp | split; [exact Ha|]].
    intros fi Hfi. unfold process_files. apply process_files_kinds.
    right. exists jf, data, fi. auto.
  - intros Hne. exists (printed (process_files json_files)).
    rewrite <- Hft, <- Haf.
    destruct json_files as [|jf l]; [congruence | reflexivity].
Qed.

Lemma filter_none_loaded l :
  (forall jf, In jf l -> is_loaded jf = false) -> filter is_loaded l = [].
Proof.
  induction l as [|jf l IH]; intros Hall; simpl; [reflexivity|].
  rewrite (Hall jf) by now left. apply IH. intros jf' Hin.
  apply Hall. now right.
Qed.

(** C9: with no field recorded the field report is the fixed text that no
    field information was found, and with no summary the comparison is
    the fixed text that no analysis result was found; a folder without
    files gives no report, and a folder none of whose files could be
    analysed gives the first of the two texts. *)
Theorem empty_batch_is_reported :
  (forall all_files,
      generate_field_consistency_report PyDict.empty all_files = NoFieldInfo)
  /\ analyze_consistency PyDict.empty = NoResults
  /\ analys_json_folder [] = None
  /\ (forall json_files,
         json_files <> [] ->
         (forall jf, In jf json_files -> is_loaded jf = false) ->
         exists lines,
           analys_json_folder json_files = Some (NoFieldInfo, lines)).
Proof.
  split; [reflexivity | split; [reflexivity | split; [reflexivity|]]].
  intros json_files Hne Hall.
  exists (printed (process_files json_files)).
  assert (Hft : field_types (process_files json_files)
                = field_types (process_files (filter is_loaded json_files)))
    by (apply process_files_same_index; reflexivity).
  rewrite filter_none_loaded in Hft by assumption.
  destruct json_files as [|jf l]; [congruence|].
  unfold analys_json_folder. rewrite Hft. reflexivity.
Qed.


(** C1: for the batch of A = [{"a": 1, "b": [{"c": "x"}]}] and
    B = [{"a": 2, "b": [{"c": 3}]}], the field report marks [a], [b] and
    [b[0]] consistent and [b[0].c] inconsistent, with ["str"] in A and
    ["int"] in B; both documents have [max_level] 2 and the depths are
    consistent; ["str"] is inconsistent with counts 1 and 0, and ["int"]
    is inconsistent with counts 1 and 2. *)
Theorem two_document_scenario :
  analys_json_folder batchAB = Some (FieldReport reportAB, linesAB)
  /\ map (fun row => (row_path row, PyDict.keys (row_types row),
                      is_consistent row))
         (rows reportAB)
     = [ ("a", ["int"], true); ("b", ["list"], true);
         ("b[0]", ["dict"], true); ("b[0].c", ["str"; "int"], false) ]
  /\ PyDict.lookup (field_types (process_files batchAB)) "b[0].c"
     = Some [("str", ["A"]); ("int", ["B"])]
  /\ max_level (analyze_json_structure docA "" None 0) = 2
  /\ max_level (analyze_json_structure docB "" None 0) = 2
  /\ exists d,
       analyze_consistency resultsAB = ConsistencyReport d
       /\ is_level_consistent d = true
       /\ PyDict.lookup (type_consistency d) "str" = Some false
       /\ PyDict.lookup (type_counts d) "str" = Some [("A", 1); ("B", 0)]
       /\ PyDict.lookup (type_consistency d) "int" = Some false
       /\ PyDict.lookup (type_counts d) "int" = Some [("A", 1); ("B", 2)].
Proof.
  repeat (split; [vm_compute; reflexivity|]).
  eexists. repeat split; vm_compute; reflexivity.
Qed.

(* ================================================================== *)
(** * The theorems at the sample batch *)

Lemma resultsAB_wf : PyDict.wf resultsAB.
Proof.
  vm_compute. constructor; [intros [H|[]]; discriminate H|].
  constructor; [intros []| constructor].
Defined.

Lemma consistent_iff_one_kind_witness :
  analys_json_folder batchAB = Some (FieldReport reportAB, linesAB)
  /\ (forall row,
         In row (rows reportAB) ->
         (is_consistent row = true
          <-> exists k, forall t, observed batchAB (row_path row) t <-> t = k))
  /\ (forall p,
         In p (inconsistent_fields reportAB)
         <-> exists t1 t2,
               t1 <> t2 /\ observed batchAB p t1 /\ observed batchAB p t2)
  /\ (forall p,
         (exists t, observed batchAB p t)
         <-> exists row, In row (rows reportAB) /\ row_path row = p).
Proof.
  split; [vm_compute; reflexivity|].
  apply (@consistent_iff_one_kind batchAB reportAB linesAB).
  vm_compute; reflexivity.
Defined.

Lemma kind_consistent_iff_same_count_witness :
  exists d b,
    analyze_consistency resultsAB = ConsistencyReport d
    /\ PyDict.lookup (type_consistency d) "str" = Some b
    /\ (b = true
        <-> forall f1 r1 f2 r2,
              In (f1, r1) resultsAB -> In (f2, r2) resultsAB ->
              PyDict.get (types r1) "str" 0 = PyDict.get (types r2) "str" 0)
    /\ ((exists f1 r1 f2 r2,
            In (f1, r1) resultsAB /\ In (f2, r2) resultsAB
            /\ PyDict.get (types r1) "str" 0 <> 0
            /\ PyDict.lookup (types r2) "str" = None) ->
        b = false).
Proof.
  apply (@kind_consistent_iff_same_count resultsAB "str" resultsAB_wf).
  exists "A", (analyze_json_structure docA "" None 0).
  split; [vm_compute; auto | vm_compute; reflexivity].
Defined.

Lemma levels_consistent_iff_equal_witness :
  exists d,
    analyze_consistency resultsAB = ConsistencyReport d
    /\ (is_level_consistent d = true
        <-> forall f1 r1 f2 r2,
              In (f1, r1) resultsAB -> In (f2, r2) resultsAB ->
              max_level r1 = max_level r2)
    /\ ((List.length resultsAB = 1)%nat -> is_level_consistent d = true).
Proof.
  apply (@levels_consistent_iff_equal resultsAB resultsAB_wf).
  vm_compute. discriminate.
Defined.


(* ================================================================== *)
(** * More on the walk *)

Lemma descend_fresh_fields value path level :
  fields (descend value path fresh_result level)
  = if is_container value
    then fields (analyze_json_structure value path None (level + 1))
    else [].
Proof.
  unfold descend. destruct (is_container value); [|reflexivity].
  now rewrite analyze_None.
Qed.

Lemma descend_fresh_types value path level :
  types (descend value path fresh_result level)
  = if is_container value
    then types (analyze_json_structure value path None (level + 1))
    else PyDict.empty.
Proof.
  unfold descend. destruct (is_container value); [|reflexivity].
  now rewrite analyze_None.
Qed.

Lemma visit_member_count path level r kv k :
  count (types (visit_member path level r kv)) k
  = count (types r) k
    + ((if String.eqb (type_name (snd kv)) k then 1 else 0)
       + count (types (descend (snd kv) (child_path path (fst kv))
                               fresh_result level)) k).
Proof.
  unfold visit_member, descend.
  destruct (is_container (snd kv)); cbn [types].
  - rewrite count_frame.
    rewrite (count_frame _ _ _ fresh_result). cbn [types fresh_result].
    rewrite count_incr_type, count_empty. lia.
  - rewrite count_incr_type. cbn [types fresh_result].
    rewrite count_empty. lia.
Qed.

Lemma analyze_dict_count members path r level k :
  count (types (analyze_json_structure (JDict members) path (Some r) level)) k
  = count (types r) k
    + sumZ (map (fun kv =>
                   (if String.eqb (type_name (snd kv)) k then 1 else 0)
                   + count (types (descend (snd kv)
                                           (child_path path (fst kv))
                                           fresh_result level)) k)
                members).
Proof.
  rewrite analyze_dict.
  change (count (types r) k) with (count (types (enter r level)) k).
  generalize (enter r level) as acc.
  induction members as [|kv members IH]; intros acc; simpl.
  - lia.
  - rewrite IH, visit_member_count. lia.
Qed.

(** X1: a call on a mapping appends, member after member in the order of
    the keys, one observation of the member at the level of the call,
    followed by what the walk of the member appends; and it adds to the
    count of every kind one for each member of that kind and what the
    walks of the members count. *)
Theorem mapping_branch_observations
    (members : list (string * json)) (path : string) (r : Result)
    (level : Z) :
  let res := analyze_json_structure (JDict members) path (Some r) level in
  let below kv := descend (snd kv) (child_path path (fst kv))
                          fresh_result level in
  fields res
  = (fields r
     ++ List.concat
          (map (fun kv =>
                  {| f_path := child_path path (fst kv);
                     f_type := type_name (snd kv);
                     f_level := level |} :: fields (below kv))
               members))%list
  /\ forall k,
       count (types res) k
       = count (types r) k
         + sumZ (map (fun kv =>
                       (if String.eqb (type_name (snd kv)) k then 1 else 0)
                       + count (types (below kv)) k)
                     members).
Proof.
  cbv zeta. split.
  - apply analyze_dict_fields.
  - intros k. apply analyze_dict_count.
Qed.

(** *** The counts as an invariant of the walk *)

Lemma counts_ok_incr tys name : counts_ok tys -> counts_ok (incr_type tys name).
Proof.
  intros [Hwf Hpos]. unfold incr_type. split.
  - now apply pydict_wf_set.
  - intros k v. destruct (string_dec name k) as [<-|Hne].
    + rewrite pydict_lookup_set_eq. intros [= <-].
      unfold PyDict.get. destruct (PyDict.lookup tys name) as [v0|] eqn:E.
      * specialize (Hpos _ _ E). lia.
      * lia.
    + rewrite pydict_lookup_set_ne by assumption. apply Hpos.
Qed.

Lemma analyze_counts_ok data :
  forall path r level,
    counts_ok (types r) ->
    counts_ok (types (analyze_json_structure data path (Some r) level)).
Proof.
  induction data as [| | | | |elems IH|members IH] using json_ind;
    intros path r level Hr;
    try (rewrite analyze_scalar by reflexivity; exact Hr).
  - destruct elems as [|x rest].
    + rewrite analyze_list_nil. cbn [types]. now apply counts_ok_incr.
    + rewrite analyze_list_cons. unfold descend.
      inversion IH as [|? ? Hx _]; subst.
      destruct (is_container x).
      * apply Hx. cbn [types]. now apply counts_ok_incr.
      * cbn [types]. now apply counts_ok_incr.
  - rewrite analyze_dict.
    assert (Hacc : counts_ok (types (enter r level))) by exact Hr.
    revert Hacc. generalize (enter r level) as acc.
    induction members as [|kv members IHm]; intros acc Hacc; simpl.
    + exact Hacc.
    + inversion IH as [|? ? Hkv Hrest]; subst.
      apply IHm; [assumption|].
      unfold visit_member. destruct (is_container (snd kv)).
      * apply Hkv. cbn [types]. now apply counts_ok_incr.
      * cbn [types]. now apply counts_ok_incr.
Qed.

Lemma counts_ok_empty : counts_ok PyDict.empty.
Proof. split; [constructor | intros k v; discriminate]. Qed.

Lemma counts_ok_count tys k :
  counts_ok tys ->
  0 <= count tys k /\ (PyDict.mem tys k = true <-> 1 <= count tys k).
Proof.
  intros [_ Hpos]. unfold count, PyDict.get, PyDict.mem.
  destruct (PyDict.lookup tys k) as [v|] eqn:E.
  - specialize (Hpos _ _ E). split; [lia|]. split; [intros _; lia | auto].
  - split; [lia|]. split; [discriminate | lia].
Qed.

(** X2: in the summary of a document the keys of [types] are pairwise
    distinct and every recorded count is at least 1, so a kind is a key
    of [types] exactly when it was counted, and [types.get(k, 0)] is
    never negative. *)
Theorem types_counts_positive (data : json) :
  let r := analyze_json_structure data "" None 0 in
  PyDict.wf (types r)
  /\ (forall k v, PyDict.lookup (types r) k = Some v -> 1 <= v)
  /\ (forall k, PyDict.mem (types r) k = true <-> 1 <= PyDict.get (types r) k 0)
  /\ (forall k, 0 <= PyDict.get (types r) k 0).
Proof.
  cbv zeta. rewrite analyze_None.
  pose proof (@analyze_counts_ok data "" fresh_result 0 counts_ok_empty)
    as Hok.
  split; [apply Hok | split; [apply Hok | split]].
  - intros k. apply (counts_ok_count k Hok).
  - intros k. apply (counts_ok_count k Hok).
Qed.

Lemma count_fresh_nonneg data path level k :
  0 <= count (types (analyze_json_structure data path None level)) k.
Proof.
  rewrite analyze_None.
  apply counts_ok_count, analyze_counts_ok, counts_ok_empty.
Qed.

Lemma descend_count_nonneg value path level k :
  0 <= count (types (descend value path fresh_result level)) k.
Proof.
  rewrite descend_fresh_types. destruct (is_container value).
  - apply count_fresh_nonneg.
  - rewrite count_empty. lia.
Qed.

(** X3: every sequence that is the value of a key of a mapping adds at
    least two to the count of ["list"]: one as the kind of the member and
    one when the walk enters the sequence. *)
Theorem member_sequence_counted_twice
    (members : list (string * json)) (path : string) (r : Result)
    (level : Z) :
  count (types r) "list" + 2 * sequence_members members
  <= count (types (analyze_json_structure (JDict members) path (Some r)
                                          level)) "list".
Proof.
  rewrite analyze_dict_count. unfold sequence_members.
  induction members as [|[key value] members IH]; simpl; [lia|].
  pose proof (descend_count_nonneg value (child_path path key) level "list")
    as Hnn.
  destruct (String.eqb_spec (type_name value) "list") as [Hl|Hl].
  - assert (Hv : exists elems, value = JList elems)
      by (destruct value; try discriminate; eauto).
    destruct Hv as [elems ->].
    assert (Hone : 1 <= count (types (descend (JList elems)
                                              (child_path path key)
                                              fresh_result level)) "list").
    { unfold descend. cbn [is_container].
      destruct elems as [|x rest].
      - rewrite analyze_list_nil. cbn [types fresh_result].
        rewrite count_incr_type, count_empty. simpl. lia.
      - rewrite analyze_list_count. cbn [types fresh_result].
        rewrite count_empty.
        pose proof (descend_count_nonneg
                      x (sample_path_of (child_path path key))
                      (level + 1) "list").
        simpl. lia. }
    cbn [List.length fst snd] in *. lia.
  - cbn [fst snd] in *. lia.
Qed.

(** *** Levels of the observations *)

Lemma fields_levels data :
  forall path level fi,
    In fi (fields (analyze_json_structure data path None level)) ->
    level <= f_level fi <= level + walk_depth data.
Proof.
  induction data as [| | | | |elems IH|members IH] using json_ind;
    intros path level fi; rewrite analyze_None;
    try (rewrite analyze_scalar by reflexivity; simpl; tauto).
  - destruct elems as [|x rest]; [rewrite analyze_list_nil; simpl; tauto|].
    rewrite analyze_list_fields, descend_fresh_fields.
    cbn [fields fresh_result app walk_depth].
    inversion IH as [|? ? Hx _]; subst.
    pose proof (walk_depth_nonneg x) as Hnn.
    destruct (is_container x).
    + intros [<-|Hin]; [cbn [f_level]; lia|].
      apply Hx in Hin. lia.
    + intros [<-|[]]. cbn [f_level]. lia.
  - rewrite analyze_dict_fields. cbn [fields fresh_result app].
    intros Hin. apply in_concat in Hin. destruct Hin as [obs [Hobs Hin]].
    apply in_map_iff in Hobs. destruct Hobs as [[key value] [<- Hkv]].
    rewrite Forall_forall in IH. specialize (IH _ Hkv).
    cbn [fst snd] in *.
    pose proof (walk_depth_nonneg (JDict members)) as Hnn.
    destruct Hin as [<-|Hin]; [cbn [f_level]; lia|].
    rewrite descend_fresh_fields in Hin.
    destruct (is_container value) eqn:Hc; [|destruct Hin].
    apply IH in Hin.
    pose proof (deepest_member_le _ _ _ Hkv Hc). lia.
Qed.

Lemma max_level_top data :
  max_level (analyze_json_structure data "" None 0) = walk_depth data.
Proof.
  rewrite analyze_None, max_level_walk. cbn [max_level fresh_result].
  pose proof (walk_depth_nonneg data). lia.
Qed.

(** X4: every observation of a document lies at a level between 0 and
    the [max_level] of its summary. *)
Theorem observation_levels_bounded (data : json) (fi : field_info) :
  In fi (fields (analyze_json_structure data "" None 0)) ->
  0 <= f_level fi <= max_level (analyze_json_structure data "" None 0).
Proof.
  intros Hin. apply fields_levels in Hin.
  rewrite max_level_top. lia.
Qed.

(** *** Counts against observations *)

Lemma nobs_app k (a b : list field_info) :
  nobs k (a ++ b)%list = nobs k a + nobs k b.
Proof.
  unfold nobs. rewrite filter_app, length_app. lia.
Qed.

Lemma nobs_cons k fi (l : list field_info) :
  nobs k (fi :: l) = (if String.eqb (f_type fi) k then 1 else 0) + nobs k l.
Proof.
  unfold nobs. simpl. destruct (String.eqb (f_type fi) k); simpl; lia.
Qed.

Lemma nobs_nil k : nobs k [] = 0.
Proof. reflexivity. Qed.

Lemma counts_and_observations data :
  forall path level,
    (forall k, k <> "list" ->
               count (types (analyze_json_structure data path None level)) k
               <= nobs k (fields (analyze_json_structure data path None level)))
    /\ nobs "list" (fields (analyze_json_structure data path None level))
       <= count (types (analyze_json_structure data path None level)) "list".
Proof.
  induction data as [| | | | |elems IH|members IH] using json_ind;
    intros path level; rewrite analyze_None;
    try (rewrite analyze_scalar by reflexivity;
         cbn [enter fresh_result types fields];
         split; [intros k _|]; rewrite count_empty, nobs_nil; lia).
  - destruct elems as [|x rest].
    + rewrite analyze_list_nil. cbn [fresh_result types fields].
      split; [intros k Hk|]; rewrite count_incr_type, count_empty, nobs_nil.
      * destruct (String.eqb_spec "list" k); [congruence | lia].
      * simpl. lia.
    + inversion IH as [|? ? Hx _]; subst.
      specialize (Hx (sample_path_of path) (level + 1)).
      destruct Hx as [Hle Hge].
      split; [intros k Hk|];
        rewrite analyze_list_count, analyze_list_fields;
        rewrite descend_fresh_fields, descend_fresh_types;
        cbn [fresh_result types fields app]; rewrite count_empty, nobs_cons;
        cbn [f_type].
      * specialize (Hle k Hk).
        destruct (String.eqb_spec "list" k); [congruence|].
        destruct (is_container x);
          [| rewrite count_empty, nobs_nil];
          destruct (String.eqb (type_name x) k); lia.
      * destruct (is_container x);
          [| rewrite count_empty, nobs_nil];
          destruct (String.eqb (type_name x) "list"); simpl; lia.
  - split; [intros k Hk|];
      rewrite analyze_dict_count, analyze_dict_fields;
      cbn [fresh_result types fields app]; rewrite count_empty.
    + induction members as [|[key value] members IHm]; simpl;
        [rewrite nobs_nil; lia|].
      inversion IH as [|? ? Hkv Hrest]; subst. specialize (IHm Hrest).
      rewrite nobs_cons, nobs_app. cbn [f_type fst snd] in *.
      rewrite descend_fresh_fields, descend_fresh_types.
      destruct (Hkv (child_path path key) (level + 1)) as [Hle _].
      specialize (Hle k Hk).
      destruct (is_container value);
        [| rewrite count_empty, nobs_nil];
        destruct (String.eqb (type_name value) k); lia.
    + induction members as [|[key value] members IHm]; simpl;
        [rewrite nobs_nil; lia|].
      inversion IH as [|? ? Hkv Hrest]; subst. specialize (IHm Hrest).
      rewrite nobs_cons, nobs_app. cbn [f_type fst snd] in *.
      rewrite descend_fresh_fields, descend_fresh_types.
      destruct (Hkv (child_path path key) (level + 1)) as [_ Hge].
      destruct (is_container value);
        [| rewrite count_empty, nobs_nil];
        destruct (String.eqb (type_name value) "list"); lia.
Qed.

(** X5: in the summary of a document the count of a kind other than
    ["list"] is at most the number of observations of that kind, and the
    count of ["list"] is at least the number of observations of kind
    ["list"]. *)
Theorem counts_against_observations (data : json) :
  let r := analyze_json_structure data "" None 0 in
  (forall k, k <> "list" -> PyDict.get (types r) k 0 <= nobs k (fields r))
  /\ nobs "list" (fields r) <= PyDict.get (types r) "list" 0.
Proof. cbv zeta. apply counts_and_observations. Qed.

(** *** Dots of a path against the level *)

Lemma count_dots_append (a b : string) :
  count_dots (a ++ b) = count_dots a + count_dots b.
Proof.
  induction a as [|c a IH]; simpl; [lia|]. rewrite IH. lia.
Qed.

Lemma count_dots_nonneg s : 0 <= count_dots s.
Proof.
  induction s as [|c s IH]; simpl; [lia|].
  destruct (Ascii.eqb c "."%char); lia.
Qed.

Lemma child_path_rank path key :
  count_dots key = 0 ->
  count_dots (child_path path key) <= path_rank path
  /\ path_rank (child_path path key) <= path_rank path + 1.
Proof.
  intros Hk. unfold path_rank, child_path.
  destruct (String.eqb_spec path "") as [->|Hne].
  - change (count_dots "") with 0. rewrite Hk.
    destruct (String.eqb key ""); lia.
  - rewrite !count_dots_append, Hk.
    change (count_dots ".") with 1.
    destruct (String.eqb_spec (path ++ "." ++ key) ""); lia.
Qed.

Lemma sample_path_rank path :
  count_dots (sample_path_of path) <= path_rank path
  /\ path_rank (sample_path_of path) <= path_rank path + 1.
Proof.
  unfold path_rank, sample_path_of. rewrite count_dots_append.
  change (count_dots "[0]") with 0.
  destruct (String.eqb path ""), (String.eqb (path ++ "[0]") ""); lia.
Qed.

Lemma fields_dots data :
  forall path level fi,
    visited_keys_dotless data = true ->
    path_rank path <= level ->
    In fi (fields (analyze_json_structure data path None level)) ->
    count_dots (f_path fi) <= f_level fi.
Proof.
  induction data as [| | | | |elems IH|members IH] using json_ind;
    intros path level fi Hd Hrank; rewrite analyze_None;
    try (rewrite analyze_scalar by reflexivity; simpl; tauto).
  - destruct elems as [|x rest]; [rewrite analyze_list_nil; simpl; tauto|].
    rewrite analyze_list_fields, descend_fresh_fields.
    cbn [fields fresh_result app].
    inversion IH as [|? ? Hx _]; subst.
    destruct (sample_path_rank path) as [Hobs Hnext].
    cbn [visited_keys_dotless] in Hd.
    destruct (is_container x).
    + intros [<-|Hin]; [cbn [f_path f_level]; lia|].
      eapply Hx; [exact Hd | | exact Hin]. lia.
    + intros [<-|[]]. cbn [f_path f_level]. lia.
  - rewrite analyze_dict_fields. cbn [fields fresh_result app].
    intros Hin. apply in_concat in Hin. destruct Hin as [obs [Hobs Hin]].
    apply in_map_iff in Hobs. destruct Hobs as [[key value] [<- Hkv]].
    rewrite Forall_forall in IH. specialize (IH _ Hkv).
    cbn [visited_keys_dotless] in Hd. rewrite forallb_forall in Hd.
    specialize (Hd _ Hkv). cbn [fst snd] in *.
    apply andb_true_iff in Hd. destruct Hd as [Hkey Hsub].
    apply Z.eqb_eq in Hkey.
    destruct (child_path_rank path key Hkey) as [Hhere Hnext].
    destruct Hin as [<-|Hin]; [cbn [f_path f_level]; lia|].
    rewrite descend_fresh_fields in Hin.
    destruct (is_container value); [|destruct Hin].
    eapply IH; [exact Hsub | | exact Hin]. lia.
Qed.

(** X6: when no key that the walk joins into a path contains a dot, the
    level which the consistency report computes for a path, its number of
    dots, is at most the level the walk recorded for the observation. *)
Theorem report_level_at_most_walk_level
    (data : json) (fi : field_info) (field_types : FieldTypes) :
  visited_keys_dotless data = true ->
  In fi (fields (analyze_json_structure data "" None 0)) ->
  row_level (make_row field_types (f_path fi)) <= f_level fi.
Proof.
  intros Hd Hin. cbn [row_level make_row].
  eapply fields_dots; [exact Hd | | exact Hin].
  unfold path_rank. simpl. lia.
Qed.

(* ================================================================== *)
(** * More on the index and its report *)

Lemma get_set_eq (V : Type) (d : PyDict.t V) k v dflt :
  PyDict.get (PyDict.set d k v) k dflt = v.
Proof. unfold PyDict.get. now rewrite pydict_lookup_set_eq. Qed.

Lemma get_set_ne (V : Type) (d : PyDict.t V) k k' v dflt :
  k <> k' -> PyDict.get (PyDict.set d k v) k' dflt = PyDict.get d k' dflt.
Proof. intros H. unfold PyDict.get. now rewrite pydict_lookup_set_ne. Qed.

(** [if k not in d: d[k] = dflt] does not change what [d.get(_, dflt)]
    gives. *)
Lemma get_after_default (V : Type) (d : PyDict.t V) k k' dflt :
  PyDict.get (if PyDict.mem d k then d else PyDict.set d k dflt) k' dflt
  = PyDict.get d k' dflt.
Proof.
  unfold PyDict.mem. destruct (PyDict.lookup d k) eqn:E; [reflexivity|].
  destruct (string_dec k k') as [<-|Hne].
  - rewrite get_set_eq. unfold PyDict.get. now rewrite E.
  - now apply get_set_ne.
Qed.

Lemma files_at_record_field title (ft : FieldTypes) fi p t :
  files_at (record_field title ft fi) p t
  = (files_at ft p t
     ++ (if String.eqb (f_path fi) p && String.eqb (f_type fi) t
         then [title] else []))%list.
Proof.
  unfold files_at, record_field.
  destruct (String.eqb_spec (f_path fi) p) as [<-|Hp]; simpl.
  - rewrite get_set_eq.
    destruct (String.eqb_spec (f_type fi) t) as [<-|Ht].
    + rewrite get_set_eq. now rewrite !get_after_default.
    + rewrite get_set_ne by assumption.
      rewrite !get_after_default. now rewrite app_nil_r.
  - rewrite get_set_ne by assumption.
    rewrite get_after_default. now rewrite app_nil_r.
Qed.

Lemma files_at_record_fields title fs :
  forall (ft : FieldTypes) p t,
    files_at (fold_left (record_field title) fs ft) p t
    = (files_at ft p t
       ++ map (fun _ => title)
              (filter (fun fi => String.eqb (f_path fi) p
                                 && String.eqb (f_type fi) t) fs))%list.
Proof.
  induction fs as [|fi fs IH]; intros ft p t; simpl.
  - now rewrite app_nil_r.
  - rewrite IH, files_at_record_field.
    destruct (String.eqb (f_path fi) p && String.eqb (f_type fi) t); simpl.
    + now rewrite <- app_assoc.
    + now rewrite app_nil_r.
Qed.

Lemma files_at_process_files l :
  forall st p t,
    files_at (field_types (fold_left process_file l st)) p t
    = (files_at (field_types st) p t ++ flat_map (titles_for p t) l)%list.
Proof.
  induction l as [|jf l IH]; intros st p t; simpl.
  - now rewrite app_nil_r.
  - rewrite IH. unfold process_file, titles_for.
    destruct (jf_load jf); cbn [field_types].
    + rewrite files_at_record_fields. now rewrite <- app_assoc.
    + reflexivity.
Qed.

(** X7: after a batch, the list kept in the index for a path and a kind
    holds the titles of the documents in the order they were processed,
    each once for every observation of that kind at that path in it, and
    nothing for a document that failed. *)
Theorem index_lists_documents (json_files : list json_file) (p t : string) :
  files_at (field_types (process_files json_files)) p t
  = flat_map (titles_for p t) json_files.
Proof.
  unfold process_files. rewrite files_at_process_files. reflexivity.
Qed.

Lemma process_files_books l :
  forall st,
    all_files (fold_left process_file l st)
    = (all_files st ++ map jf_title (filter is_loaded l))%list
    /\ printed (fold_left process_file l st)
       = (printed st ++ map printed_for l)%list.
Proof.
  induction l as [|jf l IH]; intros st; simpl.
  - now rewrite !app_nil_r.
  - destruct (IH (process_file st jf)) as [-> ->].
    unfold process_file, is_loaded, printed_for.
    destruct (jf_load jf); cbn [all_files printed map];
      rewrite <- ?app_assoc; split; reflexivity.
Qed.

(** X8: the loop prints one line for every file, in order, saying that it
    was analysed or giving its error; [all_files] holds the titles of the
    files that were analysed, in order; and the number of files the
    report gives is the number of those. *)
Theorem batch_bookkeeping (json_files : list json_file) :
  printed (process_files json_files) = map printed_for json_files
  /\ all_files (process_files json_files)
     = map jf_title (filter is_loaded json_files)
  /\ forall d lines,
       analys_json_folder json_files = Some (FieldReport d, lines) ->
       lines = map printed_for json_files
       /\ total_files d
          = Z.of_nat (List.length (filter is_loaded json_files)).
Proof.
  destruct (process_files_books json_files initial_folder_state)
    as [Ha Hp].
  cbn [initial_folder_state all_files printed app] in Ha, Hp.
  fold (process_files json_files) in Ha, Hp.
  split; [exact Hp | split; [exact Ha|]].
  intros d lines Hrep. unfold analys_json_folder in Hrep.
  destruct json_files as [|jf l]; [discriminate|].
  unfold generate_field_consistency_report in Hrep.
  destruct (field_types (process_files (jf :: l))); [discriminate|].
  inversion Hrep; subst. cbn [total_files].
  rewrite Hp, Ha, length_map. split; reflexivity.
Qed.

(** *** The order of the table *)

Lemma string_leb_false x y :
  String.leb x y = false -> String.leb y x = true.
Proof.
  intros H. destruct (String.leb_total x y) as [H'|H']; congruence.
Qed.

Lemma insert_sorted_Sorted x l :
  Sorted (fun a b => String.leb a b = true) l ->
  Sorted (fun a b => String.leb a b = true) (insert_sorted x l).
Proof.
  induction 1 as [|y l Hs IH Hhd]; simpl.
  - repeat constructor.
  - destruct (String.leb x y) eqn:E.
    + constructor; [now constructor | now constructor].
    + constructor; [exact IH|].
      apply string_leb_false in E.
      destruct l as [|z l]; simpl.
      * now constructor.
      * destruct (String.leb x z); constructor; [exact E|].
        now inversion Hhd.
Qed.

Lemma sorted_Sorted l : Sorted (fun a b => String.leb a b = true) (sorted l).
Proof.
  induction l as [|x l IH]; simpl; [constructor|].
  now apply insert_sorted_Sorted.
Qed.

Lemma insert_sorted_Permutation x l : Permutation (insert_sorted x l) (x :: l).
Proof.
  induction l as [|y l IH]; simpl; [reflexivity|].
  destruct (String.leb x y); [reflexivity|].
  rewrite IH. apply perm_swap.
Qed.

Lemma sorted_Permutation l : Permutation (sorted l) l.
Proof.
  induction l as [|x l IH]; simpl; [reflexivity|].
  rewrite insert_sorted_Permutation. now constructor.
Qed.

Lemma rows_paths (ft : FieldTypes) (l : list string) :
  map row_path (map (make_row ft) l) = l.
Proof. rewrite map_map. simpl. apply map_id. Qed.

(** X9: the table of the consistency report has one line for every path
    of the index, the paths in ascending order of their strings, and as
    many lines as the number of fields it gives. *)
Theorem report_rows_sorted_by_path
    (field_types : FieldTypes) (all_files : list string)
    (d : field_report_data) :
  generate_field_consistency_report field_types all_files = FieldReport d ->
  Sorted (fun a b => String.leb a b = true) (map row_path (rows d))
  /\ Permutation (map row_path (rows d)) (PyDict.keys field_types)
  /\ total_fields d = Z.of_nat (List.length (rows d)).
Proof.
  intros Hrep. unfold generate_field_consistency_report in Hrep.
  destruct field_types as [|entry ft] eqn:E; [discriminate|].
  rewrite <- E in *. inversion Hrep; subst d. cbn [rows total_fields].
  rewrite rows_paths. split; [apply sorted_Sorted|].
  split; [apply sorted_Permutation|].
  rewrite length_map. unfold PyDict.len.
  rewrite (Permutation_length (sorted_Permutation _)).
  unfold PyDict.keys. now rewrite length_map.
Qed.

(** *** The numbers of the summary against the table *)

Lemma set_not_nil (V : Type) (d : PyDict.t V) k v : PyDict.set d k v <> [].
Proof.
  destruct d as [|[k' v'] d]; simpl; [discriminate|].
  destruct (String.eqb k' k); discriminate.
Qed.

Lemma record_field_kinds_nonempty title (ft : FieldTypes) fi :
  kinds_nonempty ft -> kinds_nonempty (record_field title ft fi).
Proof.
  intros Hne p tys.
  destruct (record_field_at title ft fi) as [tys' [files [-> _]]].
  destruct (string_dec (f_path fi) p) as [<-|Hp].
  - rewrite pydict_lookup_set_eq. intros [= <-]. apply set_not_nil.
  - rewrite pydict_lookup_set_ne by assumption.
    destruct (PyDict.mem ft (f_path fi)); [apply Hne|].
    rewrite pydict_lookup_set_ne by assumption. apply Hne.
Qed.

Lemma process_files_kinds_nonempty l :
  forall st,
    kinds_nonempty (field_types st) ->
    kinds_nonempty (field_types (fold_left process_file l st)).
Proof.
  induction l as [|jf l IH]; intros st Hst; simpl; [assumption|].
  apply IH. unfold process_file.
  destruct (jf_load jf); cbn [field_types]; [|assumption].
  generalize (fields (analyze_json_structure data "" None 0)) as fs.
  revert Hst. generalize (field_types st) as ft.
  intros ft Hft fs. revert ft Hft.
  induction fs as [|fi fs IHf]; intros ft Hft; simpl; [assumption|].
  apply IHf. now apply record_field_kinds_nonempty.
Qed.

Lemma filter_map_length (A B : Type) (f : B -> bool) (g : A -> B) l :
  List.length (filter f (map g l))
  = List.length (filter (fun x => f (g x)) l).
Proof.
  induction l as [|x l IH]; simpl; [reflexivity|].
  destruct (f (g x)); simpl; now rewrite IH.
Qed.

Lemma filter_length_Permutation (A : Type) (f : A -> bool) l l' :
  Permutation l l' ->
  List.length (filter f l) = List.length (filter f l').
Proof.
  induction 1 as [|x l l' _ IH|x y l|l l' l'' _ IH1 _ IH2]; simpl.
  - reflexivity.
  - destruct (f x); simpl; now rewrite IH.
  - destruct (f x), (f y); reflexivity.
  - now rewrite IH1.
Qed.

Lemma filter_negb_length (A : Type) (f : A -> bool) l :
  (List.length (filter f l)
   + List.length (filter (fun x => negb (f x)) l))%nat
  = List.length l.
Proof.
  induction l as [|x l IH]; simpl; [reflexivity|].
  destruct (f x); simpl; lia.
Qed.

Lemma one_or_many_length (l : FieldTypes) :
  (forall pt, In pt l -> snd pt <> []) ->
  Nat.add (List.length (filter (fun pt => PyDict.len (snd pt) =? 1) l))
          (List.length (filter (fun pt => 1 <? PyDict.len (snd pt)) l))
  = List.length l.
Proof.
  induction l as [|pt l IH]; intros Hne; [reflexivity|].
  assert (Hpt : snd pt <> []) by (apply Hne; now left).
  specialize (IH (fun q Hq => Hne q (or_intror Hq))).
  assert (Hlen : 1 <= PyDict.len (snd pt)).
  { unfold PyDict.len. destruct (snd pt); [congruence|].
    cbn [List.length]. lia. }
  cbn [filter].
  destruct (Z.eqb_spec (PyDict.len (snd pt)) 1),
           (Z.ltb_spec 1 (PyDict.len (snd pt)));
    cbn [List.length]; lia.
Qed.

Lemma consistent_rows_length (ft : FieldTypes) :
  PyDict.wf ft ->
  List.length (filter is_consistent
                      (map (make_row ft) (sorted (PyDict.keys ft))))
  = List.length (filter (fun pt => PyDict.len (snd pt) =? 1) ft).
Proof.
  intros Hwf. rewrite filter_map_length.
  rewrite (filter_length_Permutation _ (sorted_Permutation (PyDict.keys ft))).
  unfold PyDict.keys. rewrite filter_map_length.
  f_equal. apply filter_ext_in. intros [p tys] Hin.
  unfold make_row, PyDict.get. cbn [is_consistent fst snd].
  now rewrite (@pydict_In_lookup _ _ _ _ Hwf Hin).
Qed.

(** X10: in the report of a batch the number given for the fields of
    consistent format, the number of paths less the number of
    inconsistent ones, is the number of lines of the table marked
    consistent, and the number of inconsistent fields is the number of
    lines marked inconsistent. *)
Theorem summary_counts_agree
    (json_files : list json_file) (d : field_report_data)
    (lines : list printed_line) :
  analys_json_folder json_files = Some (FieldReport d, lines) ->
  consistent_field_count (field_types (process_files json_files))
  = total_fields d - Z.of_nat (List.length (inconsistent_fields d))
  /\ Z.of_nat (List.length (filter is_consistent (rows d)))
     = consistent_field_count (field_types (process_files json_files))
  /\ List.length (filter (fun row => negb (is_consistent row)) (rows d))
     = List.length (inconsistent_fields d).
Proof.
  intros Hrep.
  set (ft := field_types (process_files json_files)) in *.
  assert (Hidx : index_wf ft)
    by (apply process_files_index_wf, initial_index_wf).
  destruct Hidx as [Hwf _].
  assert (Hne : kinds_nonempty ft).
  { apply process_files_kinds_nonempty. intros p tys. discriminate. }
  assert (Hd : rows d = map (make_row ft) (sorted (PyDict.keys ft))
               /\ inconsistent_fields d
                  = map fst (filter (fun pt => 1 <? PyDict.len (snd pt))
                                    (PyDict.items ft))
               /\ total_fields d = PyDict.len ft).
  { unfold analys_json_folder in Hrep.
    destruct json_files as [|jf rest]; [discriminate|].
    fold ft in Hrep. unfold generate_field_consistency_report in Hrep.
    destruct ft as [|entry ft']; [discriminate|].
    inversion Hrep; subst d. repeat split; reflexivity. }
  destruct Hd as [Hrows [Hinc Htot]].
  assert (Hsum : Nat.add
                   (List.length
                      (filter (fun pt => PyDict.len (snd pt) =? 1) ft))
                   (List.length
                      (filter (fun pt => 1 <? PyDict.len (snd pt)) ft))
                 = List.length ft).
  { apply one_or_many_length. intros [p tys] Hin.
    apply (Hne p). now apply pydict_In_lookup. }
  assert (Hcons : List.length (filter is_consistent (rows d))
                  = List.length
                      (filter (fun pt => PyDict.len (snd pt) =? 1) ft))
    by (rewrite Hrows; now apply consistent_rows_length).
  assert (Hlen : List.length (inconsistent_fields d)
                 = List.length
                     (filter (fun pt => 1 <? PyDict.len (snd pt)) ft))
    by (rewrite Hinc; unfold PyDict.items; now rewrite length_map).
  assert (Hrowlen : List.length (rows d) = List.length ft).
  { rewrite Hrows, length_map.
    rewrite (Permutation_length (sorted_Permutation _)).
    unfold PyDict.keys. now rewrite length_map. }
  pose proof (filter_negb_length is_consistent (rows d)) as Hneg.
  unfold consistent_field_count. rewrite Htot, Hinc.
  unfold PyDict.len, PyDict.items in *. rewrite length_map in *.
  repeat split; lia.
Qed.

Lemma summary_counts_agree_witness :
  analys_json_folder batchAB = Some (FieldReport reportAB, linesAB)
  /\ Z.of_nat (List.length (filter is_consistent (rows reportAB)))
     = consistent_field_count (field_types (process_files batchAB)).
Proof.
  split; [vm_compute; reflexivity|].
  apply (@summary_counts_agree batchAB reportAB linesAB).
  vm_compute; reflexivity.
Defined.

Lemma report_rows_sorted_by_path_witness :
  generate_field_consistency_report
    (field_types (process_files batchAB)) (all_files (process_files batchAB))
  = FieldReport reportAB
  /\ Sorted (fun a b => String.leb a b = true) (map row_path (rows reportAB)).
Proof.
  split; [vm_compute; reflexivity|].
  apply (@report_rows_sorted_by_path
           (field_types (process_files batchAB))
           (all_files (process_files batchAB)) reportAB).
  vm_compute; reflexivity.
Defined.

(* ================================================================== *)
(** * More on the comparison of a batch *)

Lemma type_consistency_loop_keys (l : list (string * PyDict.t Z)) :
  forall tcs : PyDict.t bool,
    (forall tc, In tc l -> In (fst tc) (PyDict.keys tcs)) ->
    PyDict.keys
      (fold_left
         (fun type_consistency tc =>
            if uneven (snd tc)
            then PyDict.set type_consistency (fst tc) false
            else type_consistency)
         l tcs)
    = PyDict.keys tcs.
Proof.
  induction l as [|tc l IH]; intros tcs Hin; simpl; [reflexivity|].
  assert (Hk : PyDict.keys (if uneven (snd tc)
                            then PyDict.set tcs (fst tc) false else tcs)
               = PyDict.keys tcs).
  { destruct (uneven (snd tc)); [|reflexivity].
    apply pydict_set_present. apply Hin. now left. }
  rewrite IH; [exact Hk|].
  intros tc' Htc'. rewrite Hk. apply Hin. now right.
Qed.

Lemma type_consistency_of_keys all_types (tc : PyDict.t (PyDict.t Z)) :
  NoDup all_types ->
  PyDict.keys tc = all_types ->
  PyDict.keys (type_consistency_of all_types tc) = all_types.
Proof.
  intros Hnd Hk. unfold type_consistency_of, PyDict.items.
  assert (H0 : PyDict.keys (PyDict.of_items (map (fun t => (t, true)) all_types))
               = all_types).
  { rewrite pydict_of_items_wf; rewrite keys_map_const; auto. }
  rewrite type_consistency_loop_keys; [exact H0|].
  intros x Hx. rewrite H0, <- Hk. unfold PyDict.keys. now apply in_map.
Qed.

Lemma all_true_lookup (d : PyDict.t bool) :
  PyDict.wf d ->
  (forallb (fun b => b) (PyDict.values d) = true
   <-> forall k, In k (PyDict.keys d) -> PyDict.lookup d k = Some true).
Proof.
  intros Hwf. rewrite forallb_forall. split.
  - intros Hall k Hk. destruct (keys_lookup_Some _ _ Hk) as [v Hv].
    rewrite Hv. f_equal. apply Hall.
    apply pydict_lookup_In in Hv. unfold PyDict.values.
    change v with (snd (k, v)). now apply in_map.
  - intros Hall v Hv. unfold PyDict.values in Hv.
    apply in_map_iff in Hv. destruct Hv as [[k v'] [<- Hin]].
    assert (Hk : In k (PyDict.keys d))
      by (unfold PyDict.keys; change k with (fst (k, v')); now apply in_map).
    specialize (Hall k Hk).
    rewrite (@pydict_In_lookup _ _ _ _ Hwf Hin) in Hall. simpl. congruence.
Qed.

Lemma absent_kind_count all_results k file r :
  PyDict.wf all_results ->
  ~ In k (all_types_of (type_stats_of all_results)) ->
  In (file, r) all_results ->
  count (types r) k = 0.
Proof.
  intros Hwf Hnot Hin. unfold count, PyDict.get.
  destruct (PyDict.lookup (types r) k) as [v|] eqn:E; [|reflexivity].
  exfalso. apply Hnot. apply all_types_of_In; [assumption|].
  exists file, r. split; [assumption|]. eapply lookup_Some_keys; eassumption.
Qed.

Lemma fully_consistent_iff all_results :
  PyDict.wf all_results ->
  all_results <> [] ->
  (fully_consistent (consistency_data_of all_results) = true
   <-> (forall f1 r1 f2 r2,
           In (f1, r1) all_results -> In (f2, r2) all_results ->
           max_level r1 = max_level r2)
       /\ (forall k f1 r1 f2 r2,
              In (f1, r1) all_results -> In (f2, r2) all_results ->
              PyDict.get (types r1) k 0 = PyDict.get (types r2) k 0)).
Proof.
  intros Hwf Hne.
  pose proof (is_level_consistent_iff Hwf Hne) as Hlev.
  set (tys := all_types_of (type_stats_of all_results)).
  assert (Hnd : NoDup tys) by apply all_types_of_NoDup.
  assert (Hkeys : PyDict.keys (type_consistency
                                 (consistency_data_of all_results)) = tys).
  { unfold consistency_data_of. cbn [type_consistency].
    apply type_consistency_of_keys; [assumption|].
    now apply type_counts_of_keys. }
  assert (Hall : forallb (fun b => b)
                   (PyDict.values (type_consistency
                                     (consistency_data_of all_results))) = true
                 <-> forall k, In k tys ->
                       PyDict.lookup (type_consistency
                                        (consistency_data_of all_results)) k
                       = Some true).
  { rewrite all_true_lookup by (unfold PyDict.wf; now rewrite Hkeys).
    now rewrite Hkeys. }
  assert (Hfc : fully_consistent (consistency_data_of all_results)
                = is_level_consistent (consistency_data_of all_results)
                  && forallb (fun b => b)
                       (PyDict.values (type_consistency
                                         (consistency_data_of all_results))))
    by reflexivity.
  rewrite Hfc, andb_true_iff, Hlev, Hall. clear Hfc Hall Hlev.
  split; intros [H1 H2]; (split; [exact H1|]).
  - intros k f1 r1 f2 r2 Hi1 Hi2.
    destruct (in_dec string_dec k tys) as [Hk|Hk].
    + destruct (Z.eq_dec (PyDict.get (types r1) k 0)
                         (PyDict.get (types r2) k 0)) as [|Hd];
        [assumption|].
      assert (Hf : PyDict.lookup (type_consistency
                                    (consistency_data_of all_results)) k
                   = Some false).
      { apply type_consistency_false_iff; [assumption | exact Hk|].
        exists f1, r1, f2, r2. auto. }
      rewrite (H2 k Hk) in Hf. discriminate.
    + fold (count (types r1) k). fold (count (types r2) k).
      rewrite (@absent_kind_count _ k _ _ Hwf Hk Hi1).
      now rewrite (@absent_kind_count _ k _ _ Hwf Hk Hi2).
  - intros k Hk. rewrite type_consistency_lookup by assumption.
    destruct (1 <? _) eqn:E; [|reflexivity]. exfalso.
    apply py_set_len_many in E. destruct E as [x [y [Hx [Hy Hd]]]].
    apply in_map_iff in Hx. destruct Hx as [[f1 r1] [<- Hi1]].
    apply in_map_iff in Hy. destruct Hy as [[f2 r2] [<- Hi2]].
    apply Hd. unfold count. simpl. eauto.
Qed.

(** X11: on a non-empty batch the comparison concludes that the structure
    is fully consistent exactly when all documents have the same
    [max_level] and, for every kind, the same count. *)
Theorem fully_consistent_iff_same_summaries (all_results : PyDict.t Result) :
  PyDict.wf all_results ->
  all_results <> [] ->
  exists d,
    analyze_consistency all_results = ConsistencyReport d
    /\ (fully_consistent d = true
        <-> (forall f1 r1 f2 r2,
                In (f1, r1) all_results -> In (f2, r2) all_results ->
                max_level r1 = max_level r2)
            /\ (forall k f1 r1 f2 r2,
                   In (f1, r1) all_results -> In (f2, r2) all_results ->
                   PyDict.get (types r1) k 0 = PyDict.get (types r2) k 0)).
Proof.
  intros Hwf Hne. exists (consistency_data_of all_results).
  split; [now apply analyze_consistency_nonempty|].
  now apply fully_consistent_iff.
Qed.

Lemma results_of_wf (docs : list (string * json)) :
  NoDup (map fst docs) ->
  results_of docs
  = map (fun d => (fst d, analyze_json_structure (snd d) "" None 0)) docs.
Proof.
  intros Hnd. unfold results_of. apply pydict_of_items_wf.
  now rewrite keys_map_snd.
Qed.

(** X12: for a batch of files with distinct titles that all hold the same
    document, the comparison concludes that the structure is fully
    consistent. *)
Theorem same_documents_fully_consistent
    (docs : list (string * json)) (data : json) :
  docs <> [] ->
  NoDup (map fst docs) ->
  (forall d, In d docs -> snd d = data) ->
  exists c,
    analyze_consistency (results_of docs) = ConsistencyReport c
    /\ fully_consistent c = true
    /\ is_level_consistent c = true
    /\ consistent_level c
       = Some (max_level (analyze_json_structure data "" None 0)).
Proof.
  intros Hne Hnd Hsame.
  rewrite results_of_wf by assumption.
  set (res := map _ docs).
  assert (Hwf : PyDict.wf res)
    by (unfold PyDict.wf, res; now rewrite keys_map_snd).
  assert (Hres : res <> []) by (destruct docs; [congruence | discriminate]).
  assert (Hall : forall f r, In (f, r) res ->
                             r = analyze_json_structure data "" None 0).
  { intros f r Hin. apply in_map_iff in Hin.
    destruct Hin as [d [Heq Hd]]. inversion Heq; subst.
    now rewrite (Hsame d Hd). }
  exists (consistency_data_of res).
  split; [now apply analyze_consistency_nonempty|].
  assert (Hfc : fully_consistent (consistency_data_of res) = true).
  { apply fully_consistent_iff; [assumption | assumption|]. split.
    - intros f1 r1 f2 r2 H1 H2.
      now rewrite (Hall _ _ H1), (Hall _ _ H2).
    - intros k f1 r1 f2 r2 H1 H2.
      now rewrite (Hall _ _ H1), (Hall _ _ H2). }
  assert (Hlc : is_level_consistent (consistency_data_of res) = true).
  { apply is_level_consistent_iff; [assumption | assumption|].
    intros f1 r1 f2 r2 H1 H2. now rewrite (Hall _ _ H1), (Hall _ _ H2). }
  split; [exact Hfc | split; [exact Hlc|]].
  assert (Hcl : consistent_level (consistency_data_of res)
                = if is_level_consistent (consistency_data_of res)
                  then hd_error (PyDict.values (max_levels_of res))
                  else None) by reflexivity.
  rewrite Hcl, Hlc, max_levels_of_wf by assumption.
  unfold res. destruct docs as [|d0 docs']; [congruence|].
  simpl. rewrite (Hsame d0) by now left. reflexivity.
Qed.

(** X13: what the comparison keeps for every kind found in some document
    is the list of all files, in the order of the batch, each with its
    count of the kind and with zero where the kind is missing; and the
    kinds so listed are those present in some document, each once. *)
Theorem type_counts_table (all_results : PyDict.t Result) :
  PyDict.wf all_results ->
  all_results <> [] ->
  exists d,
    analyze_consistency all_results = ConsistencyReport d
    /\ NoDup (all_types d)
    /\ PyDict.keys (type_counts d) = all_types d
    /\ PyDict.keys (type_consistency d) = all_types d
    /\ (forall k,
           In k (all_types d)
           <-> exists file r,
                 In (file, r) all_results /\ PyDict.mem (types r) k = true)
    /\ (forall k,
           In k (all_types d) ->
           PyDict.lookup (type_counts d) k
           = Some (map (fun fr => (fst fr, PyDict.get (types (snd fr)) k 0))
                       all_results)).
Proof.
  intros Hwf Hne. exists (consistency_data_of all_results).
  split; [now apply analyze_consistency_nonempty|].
  unfold consistency_data_of.
  cbn [all_types type_counts type_consistency].
  set (stats := type_stats_of all_results).
  set (tys := all_types_of stats).
  assert (Hnd : NoDup tys) by apply all_types_of_NoDup.
  assert (Hstats : PyDict.wf stats).
  { unfold stats. rewrite type_stats_of_wf by assumption.
    unfold PyDict.wf. now rewrite keys_map_snd. }
  split; [exact Hnd|].
  split; [now apply type_counts_of_keys|].
  split; [apply type_consistency_of_keys;
          [assumption | now apply type_counts_of_keys]|].
  split.
  - intros k. unfold tys, stats. rewrite all_types_of_In by assumption.
    split; intros [file [r [Hin Hk]]]; exists file, r;
      (split; [assumption|]); now apply mem_true_key.
  - intros k Hk. rewrite type_counts_of_lookup by assumption.
    f_equal. unfold stats. rewrite type_stats_of_wf by assumption.
    rewrite map_map. reflexivity.
Qed.

Lemma fully_consistent_iff_same_summaries_witness :
  exists d,
    analyze_consistency resultsAB = ConsistencyReport d
    /\ (fully_consistent d = true
        <-> (forall f1 r1 f2 r2,
                In (f1, r1) resultsAB -> In (f2, r2) resultsAB ->
                max_level r1 = max_level r2)
            /\ (forall k f1 r1 f2 r2,
                   In (f1, r1) resultsAB -> In (f2, r2) resultsAB ->
                   PyDict.get (types r1) k 0 = PyDict.get (types r2) k 0)).
Proof.
  apply (@fully_consistent_iff_same_summaries resultsAB resultsAB_wf).
  vm_compute. discriminate.
Defined.

Lemma same_documents_fully_consistent_witness :
  exists c,
    analyze_consistency (results_of [("A", docA); ("A2", docA)])
    = ConsistencyReport c
    /\ fully_consistent c = true
    /\ is_level_consistent c = true
    /\ consistent_level c
       = Some (max_level (analyze_json_structure docA "" None 0)).
Proof.
  apply (@same_documents_fully_consistent
           [("A", docA); ("A2", docA)] docA).
  - discriminate.
  - simpl. constructor; [intros [H|[]]; discriminate H|].
    constructor; [intros [] | constructor].
  - intros d [<-|[<-|[]]]; reflexivity.
Defined.

Lemma type_counts_table_witness :
  exists d,
    analyze_consistency resultsAB = ConsistencyReport d
    /\ NoDup (all_types d)
    /\ PyDict.keys (type_counts d) = all_types d
    /\ PyDict.keys (type_consistency d) = all_types d
    /\ (forall k,
           In k (all_types d)
           <-> exists file r,
                 In (file, r) resultsAB /\ PyDict.mem (types r) k = true)
    /\ (forall k,
           In k (all_types d) ->
           PyDict.lookup (type_counts d) k
           = Some (map (fun fr => (fst fr, PyDict.get (types (snd fr)) k 0))
                       resultsAB)).
Proof.
  apply (@type_counts_table resultsAB resultsAB_wf).
  vm_compute. discriminate.
Defined.

(* ================================================================== *)
(** * The report of one file *)

Lemma level_path_leb_le a b : level_path_leb a b = true <-> level_path_le a b.
Proof.
  unfold level_path_leb, level_path_le.
  rewrite orb_true_iff, andb_true_iff, Z.ltb_lt, Z.eqb_eq. tauto.
Qed.

Lemma level_path_leb_false a b :
  level_path_leb a b = false -> level_path_le b a.
Proof.
  unfold level_path_leb, level_path_le. intros H.
  apply orb_false_iff in H. destruct H as [Hlt Hrest].
  apply Z.ltb_ge in Hlt.
  destruct (Z.eqb_spec (f_level a) (f_level b)) as [Heq|Hneq].
  - simpl in Hrest. right. split; [congruence|].
    now apply string_leb_false.
  - left. lia.
Qed.

Lemma insert_field_Sorted x l :
  Sorted level_path_le l -> Sorted level_path_le (insert_field x l).
Proof.
  induction 1 as [|y l Hs IH Hhd]; simpl.
  - repeat constructor.
  - destruct (level_path_leb x y) eqn:E.
    + apply level_path_leb_le in E.
      constructor; [now constructor | now constructor].
    + apply level_path_leb_false in E.
      constructor; [exact IH|].
      destruct l as [|z l]; simpl.
      * now constructor.
      * destruct (level_path_leb x z); constructor; [exact E|].
        now inversion Hhd.
Qed.

Lemma insert_field_Permutation x l : Permutation (insert_field x l) (x :: l).
Proof.
  induction l as [|y l IH]; simpl; [reflexivity|].
  destruct (level_path_leb x y); [reflexivity|].
  rewrite IH. apply perm_swap.
Qed.

Lemma sorted_by_level_path_spec (fs : list field_info) :
  Sorted level_path_le (sorted_by_level_path fs)
  /\ Permutation (sorted_by_level_path fs) fs.
Proof.
  unfold sorted_by_level_path. split.
  - induction fs as [|x fs IH]; simpl; [constructor|].
    now apply insert_field_Sorted.
  - induction fs as [|x fs IH]; simpl; [reflexivity|].
    rewrite insert_field_Permutation. now constructor.
Qed.

(** X14: the report of one file is made of its title and the heading of
    the table of kinds, one line for every key of [types] in the order of
    the keys, the heading of the table of fields, one line for every
    observation of the summary, the heading of the tree, one line of the
    tree for every observation, and the closing fence; the lines of the
    table of fields and those of the tree follow the same order of the
    observations of the summary, each taken once, ascending in level and,
    at equal level, in path. *)
Theorem report_tabulates_sorted_fields
    (file_title : string) (analysis_result : Result) :
  exists sorted_fields,
    Sorted level_path_le sorted_fields
    /\ Permutation sorted_fields (fields analysis_result)
    /\ markdown_report_lines file_title analysis_result
       = List.app
           [ "# JSON结构分析报告: " ++ file_title; "";
             "## 数据类型统计"; "";
             "| 数据类型 | 出现次数 |";
             "| -------- | -------- |" ]
           (List.app
              (map (fun tc =>
                      "| " ++ fst tc ++ " | " ++ str_of_int (snd tc) ++ " |")
                   (types analysis_result))
              (List.app
                 [ ""; "## 字段层级结构"; "";
                   "| 层级 | 字段路径 | 数据类型 |"; "|--|--|--|" ]
                 (List.app
                    (map (fun field =>
                            "| " ++ str_of_int (f_level field) ++ " | "
                            ++ f_path field ++ " | " ++ f_type field ++ " |")
                         sorted_fields)
                    (List.app
                       [ ""; "## 树形结构可视化"; ""; "```" ]
                       (List.app (map tree_line sorted_fields) [ "```" ])))))
    /\ generate_markdown_report file_title analysis_result
       = String.concat newline
           (markdown_report_lines file_title analysis_result)
    /\ List.length (markdown_report_lines file_title analysis_result)
       = (16 + List.length (types analysis_result)
          + 2 * List.length (fields analysis_result))%nat.
Proof.
  exists (sorted_by_level_path (fields analysis_result)).
  destruct (sorted_by_level_path_spec (fields analysis_result)) as [Hs Hp].
  split; [exact Hs | split; [exact Hp|]].
  assert (Hlines :
            markdown_report_lines file_title analysis_result
            = List.app
                [ "# JSON结构分析报告: " ++ file_title; "";
                  "## 数据类型统计"; "";
                  "| 数据类型 | 出现次数 |";
                  "| -------- | -------- |" ]
                (List.app
                   (map (fun tc =>
                           "| " ++ fst tc ++ " | " ++ str_of_int (snd tc)
                           ++ " |")
                        (types analysis_result))
                   (List.app
                      [ ""; "## 字段层级结构"; "";
                        "| 层级 | 字段路径 | 数据类型 |"; "|--|--|--|" ]
                      (List.app
                         (map (fun field =>
                                 "| " ++ str_of_int (f_level field) ++ " | "
                                 ++ f_path field ++ " | " ++ f_type field
                                 ++ " |")
                              (sorted_by_level_path (fields analysis_result)))
                         (List.app
                            [ ""; "## 树形结构可视化"; ""; "```" ]
                            (List.app
                               (map tree_line
                                    (sorted_by_level_path
                                       (fields analysis_result)))
                               [ "```" ])))))).
  { unfold markdown_report_lines, generate_tree_structure, PyDict.items.
    cbv zeta. rewrite <- !app_assoc. reflexivity. }
  split; [exact Hlines | split; [reflexivity|]].
  rewrite Hlines. rewrite !length_app, !length_map.
  rewrite (Permutation_length Hp). cbn [List.length]. lia.
Qed.

(** *** Names in the tree *)

Lemma split_dots_dotless s : count_dots s = 0 -> split_dots s = [s].
Proof.
  induction s as [|c s IH]; simpl; [reflexivity|].
  pose proof (count_dots_nonneg s) as Hnn.
  destruct (Ascii.eqb c "."%char); [lia|].
  intros H. rewrite IH by lia. reflexivity.
Qed.

Lemma split_dots_length s :
  Z.of_nat (List.length (split_dots s)) = count_dots s + 1.
Proof.
  induction s as [|c s IH]; simpl; [reflexivity|].
  destruct (Ascii.eqb c "."%char).
  - cbn [List.length]. lia.
  - pose proof (count_dots_nonneg s).
    destruct (split_dots s) as [|seg rest]; cbn [List.length] in *; lia.
Qed.

Lemma last_part_String c s :
  last_part (String c s)
  = if Ascii.eqb c "."%char then last_part s
    else if count_dots s =? 0 then String c s else last_part s.
Proof.
  unfold last_part. simpl.
  pose proof (split_dots_length s) as Hlen.
  pose proof (count_dots_nonneg s) as Hnn.
  destruct (Ascii.eqb c "."%char).
  - destruct (split_dots s) as [|seg rest] eqn:E; [simpl in Hlen|reflexivity].
    lia.
  - destruct (Z.eqb_spec (count_dots s) 0) as [H0|H0].
    + rewrite (split_dots_dotless s H0). reflexivity.
    + destruct (split_dots s) as [|seg [|seg' rest]] eqn:E;
        cbn [List.length] in Hlen; try lia.
      reflexivity.
Qed.

Lemma last_part_dotless s : count_dots s = 0 -> last_part s = s.
Proof.
  intros H. unfold last_part. now rewrite split_dots_dotless.
Qed.

Lemma last_part_after_dot a b :
  count_dots b = 0 -> last_part (a ++ "." ++ b) = b.
Proof.
  intros Hb. induction a as [|c a IH].
  - change ("" ++ "." ++ b) with (String "."%char b).
    rewrite last_part_String. simpl. now apply last_part_dotless.
  - change (String c a ++ "." ++ b) with (String c (a ++ "." ++ b)).
    rewrite last_part_String, IH.
    destruct (Ascii.eqb c "."%char); [reflexivity|].
    rewrite count_dots_append, count_dots_append, Hb.
    change (count_dots ".") with 1.
    pose proof (count_dots_nonneg a).
    destruct (Z.eqb_spec (count_dots a + (1 + 0)) 0); [lia | reflexivity].
Qed.

Lemma last_part_append a b :
  count_dots b = 0 -> last_part (a ++ b) = last_part a ++ b.
Proof.
  intros Hb. induction a as [|c a IH].
  - simpl. now apply last_part_dotless.
  - change (String c a ++ b) with (String c (a ++ b)).
    rewrite !last_part_String, IH, count_dots_append, Hb.
    replace (count_dots a + 0) with (count_dots a) by lia.
    destruct (Ascii.eqb c "."%char); [reflexivity|].
    destruct (count_dots a =? 0); reflexivity.
Qed.

(** X15: in the tree of the report the member of a mapping whose key has
    no dot is drawn under its key, whatever the path of the mapping, and
    the first element of a sequence under the name of the sequence
    followed by [[0]]; the name drawn never contains a dot. *)
Theorem tree_names :
  (forall path key ty level,
      count_dots key = 0 ->
      tree_line {| f_path := child_path path key;
                   f_type := ty; f_level := level |}
      = str_mul "  " level ++ "├── " ++ key ++ " (" ++ ty ++ ")")
  /\ (forall path ty level,
         tree_line {| f_path := sample_path_of path;
                      f_type := ty; f_level := level |}
         = str_mul "  " level ++ "├── "
           ++ (List.last (split_dots path) "" ++ "[0]")
           ++ " (" ++ ty ++ ")")
  /\ (forall field, count_dots (List.last (split_dots (f_path field)) "") = 0).
Proof.
  split; [|split].
  - intros path key ty level Hk. unfold tree_line. cbn [f_path f_type f_level].
    fold (last_part (child_path path key)).
    replace (last_part (child_path path key)) with key; [reflexivity|].
    unfold child_path. destruct (String.eqb path "").
    + symmetry. now apply last_part_dotless.
    + symmetry. now apply last_part_after_dot.
  - intros path ty level. unfold tree_line. cbn [f_path f_type f_level].
    fold (last_part (sample_path_of path)). fold (last_part path).
    unfold sample_path_of. now rewrite last_part_append.
  - intros field. fold (last_part (f_path field)).
    induction (f_path field) as [|c s IH]; [reflexivity|].
    rewrite last_part_String.
    destruct (Ascii.eqb c "."%char) eqn:Ec; [exact IH|].
    destruct (Z.eqb_spec (count_dots s) 0) as [H0|H0]; [|exact IH].
    simpl. rewrite Ec. lia.
Qed.

(* ================================================================== *)
(** * What the walk does not look at *)

Lemma skeleton_type_name data : type_name (skeleton data) = type_name data.
Proof. destruct data as [| | | | |[|x rest]|members]; reflexivity. Qed.

Lemma skeleton_is_container data :
  is_container (skeleton data) = is_container data.
Proof. destruct data as [| | | | |[|x rest]|members]; reflexivity. Qed.

Lemma analyze_skeleton data :
  forall path r level,
    analyze_json_structure (skeleton data) path (Some r) level
    = analyze_json_structure data path (Some r) level.
Proof.
  induction data as [| | | | |elems IH|members IH] using json_ind;
    intros path r level; try reflexivity.
  - destruct elems as [|x rest]; [reflexivity|].
    cbn [skeleton]. rewrite !analyze_list_cons. unfold descend.
    inversion IH as [|? ? Hx _]; subst.
    rewrite skeleton_type_name, skeleton_is_container.
    destruct (is_container x); [apply Hx | reflexivity].
  - cbn [skeleton]. rewrite !analyze_dict.
    generalize (enter r level) as acc.
    induction members as [|kv members IHm]; intros acc; simpl;
      [reflexivity|].
    inversion IH as [|? ? Hkv Hrest]; subst.
    rewrite (IHm Hrest). f_equal.
    unfold visit_member. cbn [fst snd].
    rewrite skeleton_type_name, skeleton_is_container.
    destruct (is_container (snd kv)); [apply Hkv | reflexivity].
Qed.

(** X16: the summary of a document does not depend on the values of its
    scalars nor on the elements of a sequence after the first: the walk
    gives the same result on the document with every scalar replaced by a
    fixed one of its kind and every sequence cut after its first
    element, and so do all the reports made from the summaries. *)
Theorem summary_ignores_values (data : json) :
  (forall path result level,
      analyze_json_structure (skeleton data) path result level
      = analyze_json_structure data path result level)
  /\ (forall st path title,
         process_file st {| jf_path := path; jf_title := title;
                            jf_load := Loaded (skeleton data) |}
         = process_file st {| jf_path := path; jf_title := title;
                              jf_load := Loaded data |}).
Proof.
  assert (H : forall path result level,
             analyze_json_structure (skeleton data) path result level
             = analyze_json_structure data path result level).
  { intros path [r|] level.
    - apply analyze_skeleton.
    - rewrite !analyze_None. apply analyze_skeleton. }
  split; [exact H|].
  intros st path title. unfold process_file. cbn [jf_load jf_title jf_path].
  now rewrite H.
Qed.

(* ================================================================== *)
(** * Further theorems at the sample batch *)

Lemma observation_levels_bounded_witness :
  In deepest_of_docA (fields (analyze_json_structure docA "" None 0))
  /\ 0 <= f_level deepest_of_docA
        <= max_level (analyze_json_structure docA "" None 0).
Proof.
  assert (Hin : In deepest_of_docA
                   (fields (analyze_json_structure docA "" None 0)))
    by (vm_compute; auto 6).
  split; [exact Hin|].
  exact (@observation_levels_bounded docA deepest_of_docA Hin).
Defined.

Lemma report_level_at_most_walk_level_witness :
  visited_keys_dotless docA = true
  /\ In deepest_of_docA (fields (analyze_json_structure docA "" None 0))
  /\ row_level (make_row PyDict.empty (f_path deepest_of_docA))
     <= f_level deepest_of_docA.
Proof.
  assert (Hin : In deepest_of_docA
                   (fields (analyze_json_structure docA "" None 0)))
    by (vm_compute; auto 6).
  split; [reflexivity | split; [exact Hin|]].
  exact (@report_level_at_most_walk_level
           docA deepest_of_docA PyDict.empty eq_refl Hin).
Defined.
